(** * The tinacms CLI dev session: code generation and watch routing

    A shallow embedding of
    - [packages/@tinacms/cli/src/next/codegen/index.ts] (class [Codegen]) and
    - [packages/@tinacms/cli/src/next/commands/dev-command/index.ts]
      (class [DevCommand]: the [setup] closure, the watchers and their
      listeners),
    followed by the properties of the design document that can be stated
    on them.

    Files hold byte strings (a document is modelled by its UTF-8
    encoding, so [String.length] is the size [fs.stat] reports).  The
    disk is a finite map from paths to contents; directories and I/O
    failures other than a missing file are not modelled.  Every effect
    the code performs is appended to a trace kept in the world, so that
    orderings can be stated.  A method or a listener runs to completion
    before the next one starts: the interleaving of asynchronous
    listeners at their [await]s is not modelled. *)

From Stdlib Require Import ZArith String Ascii List Lia.
From stdpp Require Import base option list strings pretty gmap sorting.

(** ** JavaScript values used by the code *)

Module Js.

(** A double quote and a line feed, for the template literals. *)
Definition dq : string := String "034"%char EmptyString.
Definition nl : string := String "010"%char EmptyString.

(** The numbers a port can be: [Number(s)] of a command line string is
    [NaN] or a number; only integral values are modelled. *)
Inductive number : Type :=
| NaN
| Int (z : Z).

(** Truthiness of a string-or-undefined value: [undefined] and the
    empty string are falsy. *)
Definition truthy (v : option string) : bool :=
  match v with
  | None => false
  | Some s => negb (String.eqb s "")
  end.

(** Truthiness of a number-or-undefined value: [undefined], [0] and
    [NaN] are falsy. *)
Definition truthy_number (v : option number) : bool :=
  match v with
  | None => false
  | Some NaN => false
  | Some (Int z) => negb (z =? 0)%Z
  end.

(** What a template literal prints for [${v}]. *)
Definition show (v : option string) : string :=
  match v with
  | None => "undefined"
  | Some s => s
  end.

Definition show_number (v : option number) : string :=
  match v with
  | None => "undefined"
  | Some NaN => "NaN"
  | Some (Int z) => pretty z
  end.

(** [a || b] on string-or-undefined operands. *)
Definition or_else (a : option string) (b : string) : string :=
  if truthy a then show a else b.

(** [Array.prototype.join]. *)
Definition join (sep : string) (l : list string) : string :=
  String.concat sep l.

(** [String.prototype.includes]. *)
Fixpoint includes (s sub : string) : bool :=
  String.prefix sub s ||
  match s with
  | EmptyString => false
  | String _ rest => includes rest sub
  end.

(** A JavaScript call either returns or throws; an exception is
    represented by its [message]. *)
Inductive result (A : Type) : Type :=
| Ok (a : A)
| Err (message : string).
Arguments Ok {A} a.
Arguments Err {A} message.

End Js.
Import Js.

(** ** The configuration manager, as far as the two files use it

    [ConfigManager] is defined elsewhere in the package; the record lists
    the fields and the results of the methods that the two files read. *)

Record Collection : Type := {
  coll_path : string;
  coll_format : option string;
}.

Record TinaioConfig : Type := {
  tinaio_contentApiUrlOverride : option string;
}.

Record Config : Type := {
  branch : option string;
  clientId : option string;
  token : option string;
  contentApiUrlOverride : option string;
  tinaioConfig : option TinaioConfig;
  collections : list Collection;          (* config.schema.collections *)
}.

Record ConfigManager : Type := {
  config : Config;
  generatedClientJSFilePath : string;
  generatedTypesDFilePath : string;
  generatedTypesJSFilePath : string;
  generatedTypesTSFilePath : string;
  generatedClientTSFilePath : string;
  generatedQueriesFilePath : string;
  generatedFragmentsFilePath : string;
  generatedGraphQLGQLPath : string;
  generatedSchemaJSONPath : string;
  generatedLookupJSONPath : string;
  generatedGraphQLJSONPath : string;
  tinaFolderPath : string;
  contentRootPath : string;
  userQueriesAndFragmentsGlob : string;
  generatedQueriesAndFragmentsGlob : string;
  isUsingLegacyFolder : bool;
  isUsingTs : bool;                       (* isUsingTs() *)
  getTinaGraphQLVersion : string;         (* getTinaGraphQLVersion() *)
  printContentRelativePath : string -> string;
}.

Definition TINA_HOST : string := "content.tinajs.io".

(** ** API URL resolution ([Codegen.getApiURL])

    The function reads the port of the [Codegen] object and the
    configuration; it has no effect. *)

Section ApiURL.

Variable cm : ConfigManager.
Variable port : option number.

Definition missingFields : list string :=
  let missing := [] in
  let missing := if negb (truthy (branch (config cm))) then missing ++ ["branch"] else missing in
  let missing := if negb (truthy (clientId (config cm))) then missing ++ ["clientId"] else missing in
  let missing := if negb (truthy (token (config cm))) then missing ++ ["token"] else missing in
  missing.

Definition getApiURL : result string :=
  let branch := branch (config cm) in
  let clientId := clientId (config cm) in
  let token := token (config cm) in
  let version := getTinaGraphQLVersion cm in
  let baseUrl :=
    or_else (tinaioConfig (config cm) ≫= tinaio_contentApiUrlOverride)
            ("https://" +:+ TINA_HOST) in
  if (negb (truthy branch) || negb (truthy clientId) || negb (truthy token))
     && negb (truthy_number port)
     && negb (truthy (contentApiUrlOverride (config cm)))
  then
    Err ("Client not configured properly. Missing "
         +:+ join ", " missingFields
         +:+ ". Please visit https://tina.io/docs/tina-cloud/connecting-site/ for more information")
  else
    let apiURL :=
      if truthy_number port
      then "http://localhost:" +:+ show_number port +:+ "/graphql"
      else baseUrl +:+ "/" +:+ version +:+ "/content/" +:+ show clientId
                   +:+ "/github/" +:+ show branch in
    let apiURL :=
      if truthy (contentApiUrlOverride (config cm))
      then show (contentApiUrlOverride (config cm))
      else apiURL in
    Ok apiURL.

End ApiURL.

(** ** External collaborators

    The schema builder, the type generator, the transpiler, the content
    indexer and the configuration loader are other packages.  Each is a
    function of what it is given; [Sources] stands for what the user
    owns on disk (the configuration file, the content tree and the
    user's query documents), which this code only reads. *)

Class Externals : Type := {
  Sources : Type;
  GraphQLSchema : Type;
  DocumentNode : Type;
  TinaSchema : Type;
  Database : Type;
  (* graphql *)
  printSchema : GraphQLSchema -> string;
  (* ./codegen: reads the documents the two globs match, the user's in
     the sources and the generated ones on the disk *)
  generateTypes :
    GraphQLSchema -> string -> string -> string ->
    Sources -> gmap string string -> result string;
  (* esbuild: [(await transform(code, { loader: 'ts' })).code] *)
  transform : string -> result string;
  (* ConfigManager.processConfig: the manager it leaves behind *)
  processConfig : Sources -> result ConfigManager;
  createAndInitializeDatabase : Sources -> ConfigManager -> result Database;
  (* @tinacms/graphql buildSchema: tinaSchema, graphQLSchema, queryDoc, fragDoc *)
  buildSchema : Database -> Config -> result (TinaSchema * DocumentNode * string * string);
  (* [require] of a generated JSON module whose cache entry was dropped,
     as [JSON.stringify] prints the object *)
  requireJSON : Sources -> string -> result string;
  getASTSchema : Database -> result GraphQLSchema;
  indexContent : Sources -> Database -> TinaSchema -> DocumentNode -> result unit;
}.

Section Session.

Context `{Ext : Externals}.

(** The fields of a [Codegen] object, except [configManager]: that one
    is a reference to the session's only [ConfigManager], which lives
    in the world below and is read at the time of each call. *)
Record Codegen : Type := {
  port : option number;
  schema : GraphQLSchema;
  noSDK : bool;
  queryDoc : string;
  fragDoc : string;
}.

(** *** Effects *)

Inductive Channel : Type :=
| ConsoleWarn | ConsoleLog | ConsoleError
| LoggerInfo | LoggerWarn | LoggerError.

Inductive Call : Type :=
| ProcessConfig
| CreateAndInitializeDatabase
| BuildSchema
| Require (path : string)
| GetASTSchema
| GenerateTypes
| PrintSchema
| Transform
| ChokidarWatch (globs : list string)
| IndexContent
| IndexContentByPaths (paths : list string)
| DeleteContentByPaths (paths : list string).

Inductive Event : Type :=
| EOutputFile (path content : string)        (* fs.outputFile *)
| EWriteFileSync (path content : string)     (* fs.writeFileSync *)
| EUnlinkSync (path : string)                (* fs.unlinkSync *)
| EStat (path : string)                      (* fs.stat *)
| EPrint (ch : Channel) (text : string)      (* console.* and logger.* *)
| ECall (c : Call)                           (* a call to a collaborator *)
| ERaise (message : string)                  (* an exception is thrown *)
| EExit (code : Z).                          (* process.exit *)

(** A chokidar watcher with its own [ready] variable and what its
    listeners captured. *)
Inductive Watcher : Type :=
| ContentWatcher (ready : bool) (database : Database)
| QueryWatcher (ready : bool) (codegen : Codegen).

Record World : Type := {
  sources : Sources;
  files : gmap string string;
  configManager : ConfigManager;
  watchers : list Watcher;
  events : list Event;                       (* oldest first *)
}.

Inductive outcome (A : Type) : Type :=
| Return (a : A) (w : World)
| Throw (message : string) (w : World)
| Exit (code : Z) (w : World).
Arguments Return {A} a w.
Arguments Throw {A} message w.
Arguments Exit {A} code w.

Definition M (A : Type) : Type := World -> outcome A.

Definition ret {A} (a : A) : M A := fun w => Return a w.

Definition bind {A B} (f : A -> M B) (m : M A) : M B :=
  fun w =>
    match m w with
    | Return a w' => f a w'
    | Throw e w' => Throw e w'
    | Exit c w' => Exit c w'
    end.

#[global] Instance M_ret : MRet M := @ret.
#[global] Instance M_bind : MBind M := @bind.

Definition world_of {A} (o : outcome A) : World :=
  match o with
  | Return _ w | Throw _ w | Exit _ w => w
  end.

(** The world after the disk became [disk] and the effects [d] were
    performed. *)
Definition after (disk : gmap string string) (d : list Event) (w : World) : World :=
  {| sources := sources w; files := disk;
     configManager := configManager w; watchers := watchers w;
     events := events w ++ d |}.

Definition record (e : Event) (w : World) : World := after (files w) [e] w.

Definition set_configManager (cm : ConfigManager) (w : World) : World :=
  {| sources := sources w; files := files w;
     configManager := cm; watchers := watchers w;
     events := events w |}.

Definition set_watchers (ws : list Watcher) (w : World) : World :=
  {| sources := sources w; files := files w;
     configManager := configManager w; watchers := ws;
     events := events w |}.

Definition emit (e : Event) : M unit := fun w => Return tt (record e w).

Definition raise {A} (message : string) : M A :=
  fun w => Throw message (record (ERaise message) w).

Definition process_exit {A} (code : Z) : M A :=
  fun w => Exit code (record (EExit code) w).

(** [try { m } catch (e) { h e }] *)
Definition try_catch {A} (m : M A) (h : string -> M A) : M A :=
  fun w =>
    match m w with
    | Throw e w' => h e w'
    | o => o
    end.

Definition throwing {A} (r : result A) : M A :=
  match r with
  | Ok a => ret a
  | Err e => raise e
  end.

(** A call to a collaborator: it is made, then returns or throws. *)
Definition call {A} (c : Call) (r : result A) : M A :=
  emit (ECall c) ;; throwing r.

Definition print (ch : Channel) (text : string) : M unit := emit (EPrint ch text).

Definition this_configManager : M ConfigManager := fun w => Return (configManager w) w.
Definition the_sources : M Sources := fun w => Return (sources w) w.
Definition the_files : M (gmap string string) := fun w => Return (files w) w.

(** *** The file system calls of fs-extra that the code makes *)

Definition outputFile (path content : string) : M unit :=
  fun w => Return tt (after (<[path:=content]> (files w)) [EOutputFile path content] w).

Definition writeFileSync (path content : string) : M unit :=
  fun w => Return tt (after (<[path:=content]> (files w)) [EWriteFileSync path content] w).

Definition existsSync (path : string) : M bool :=
  fun w => Return (bool_decide (is_Some (files w !! path))) w.

Definition unlinkSync (path : string) : M unit :=
  fun w =>
    match files w !! path with
    | Some _ => Return tt (after (delete path (files w)) [EUnlinkSync path] w)
    | None => raise ("ENOENT: no such file or directory, unlink '" +:+ path +:+ "'") w
    end.

(** [(await fs.stat(filepath)).size], in bytes. *)
Definition stat_size (path : string) : M N :=
  fun w =>
    match files w !! path with
    | Some content => Return (N.of_nat (String.length content)) (record (EStat path) w)
    | None => raise ("ENOENT: no such file or directory, stat '" +:+ path +:+ "'") w
    end.

(** *** codegen/index.ts *)

Definition fragmentSizeWarning : string :=
  "Warning: frags.gql is very large (>100kb). Consider setting the reference depth to 1 or 0. See code snippet below.".

Definition fragmentSizeSnippet : string :=
  "const schema = defineSchema({" +:+ nl +:+
  "        config: {" +:+ nl +:+
  "            client: {" +:+ nl +:+
  "                referenceDepth: 1," +:+ nl +:+
  "            }," +:+ nl +:+
  "        }" +:+ nl +:+
  "        // ..." +:+ nl +:+
  "    })".

Definition maybeWarnFragmentSize (filepath : string) : M unit :=
  size ← stat_size filepath;
  if (100 * 1024 <? size)%N then
    print ConsoleWarn fragmentSizeWarning ;;
    print ConsoleLog fragmentSizeSnippet
  else ret tt.

Definition unlinkIfExists (filepath : string) : M unit :=
  b ← existsSync filepath;
  if b : bool then unlinkSync filepath else ret tt.

Definition removeGeneratedFilesIfExists : M unit :=
  cm ← this_configManager;
  unlinkIfExists (generatedClientJSFilePath cm) ;;
  unlinkIfExists (generatedTypesDFilePath cm) ;;
  unlinkIfExists (generatedTypesJSFilePath cm) ;;
  unlinkIfExists (generatedTypesTSFilePath cm) ;;
  unlinkIfExists (generatedClientTSFilePath cm) ;;
  unlinkIfExists (generatedQueriesFilePath cm) ;;
  unlinkIfExists (generatedFragmentsFilePath cm).

(** [this.getApiURL()] inside a method: the pure resolution above, on
    the manager as it is now, throwing its error. *)
Definition this_getApiURL (this : Codegen) : M string :=
  cm ← this_configManager;
  throwing (getApiURL cm (port this)).

Definition clientCode (apiURL : string) (token : option string) : string :=
  "import { createClient } from " +:+ dq +:+ "tinacms/dist/client" +:+ dq +:+ ";" +:+ nl +:+
  "import { queries } from " +:+ dq +:+ "./types" +:+ dq +:+ ";" +:+ nl +:+
  "export const client = createClient({ url: '" +:+ apiURL +:+ "', token: '"
    +:+ show token +:+ "', queries });" +:+ nl +:+
  "export default client;" +:+ nl +:+
  "  ".

(** Returns [(apiURL, clientString)]. *)
Definition genClient (this : Codegen) : M (string * string) :=
  cm ← this_configManager;
  let token := token (config cm) in
  apiURL ← this_getApiURL this;
  let clientString := clientCode apiURL token in
  ret (apiURL, clientString).

Definition typesCode (typescriptTypes : string) : string :=
  "//@ts-nocheck" +:+ nl +:+
  "  // DO NOT MODIFY THIS FILE. This file is automatically generated by Tina" +:+ nl +:+
  "  export function gql(strings: TemplateStringsArray, ...args: string[]): string {" +:+ nl +:+
  "    let str = ''" +:+ nl +:+
  "    strings.forEach((string, i) => {" +:+ nl +:+
  "      str += string + (args[i] || '')" +:+ nl +:+
  "    })" +:+ nl +:+
  "    return str" +:+ nl +:+
  "  }" +:+ nl +:+
  "  " +:+ typescriptTypes +:+ nl +:+
  "  ".

Definition schemaCode (printed : string) : string :=
  "# DO NOT MODIFY THIS FILE. This file is automatically generated by Tina" +:+ nl +:+
  printed +:+ nl +:+
  "schema {" +:+ nl +:+
  "  query: Query" +:+ nl +:+
  "  mutation: Mutation" +:+ nl +:+
  "}" +:+ nl.

(** Returns [(codeString, schemaString)]. *)
Definition genTypes (this : Codegen) : M (string * string) :=
  cm ← this_configManager;
  apiURL ← this_getApiURL this;
  src ← the_sources;
  disk ← the_files;
  typescriptTypes ←
    call GenerateTypes
      (generateTypes (schema this)
         (userQueriesAndFragmentsGlob cm)
         (generatedQueriesAndFragmentsGlob cm)
         apiURL src disk);
  let codeString := typesCode typescriptTypes in
  printed ← call PrintSchema (Ok (printSchema (schema this)));
  let schemaString := schemaCode printed in
  ret (codeString, schemaString).

Definition execute (this : Codegen) : M string :=
  cm ← this_configManager;
  apiURL ← this_getApiURL this;
  if noSDK this then
    removeGeneratedFilesIfExists ;;
    ret apiURL
  else
    outputFile (generatedQueriesFilePath cm) (queryDoc this) ;;
    outputFile (generatedFragmentsFilePath cm) (fragDoc this) ;;
    maybeWarnFragmentSize (generatedFragmentsFilePath cm) ;;
    '(_, clientString) ← genClient this;
    '(codeString, schemaString) ← genTypes this;
    outputFile (generatedGraphQLGQLPath cm) schemaString ;;
    (if isUsingTs cm then
       outputFile (generatedTypesTSFilePath cm) codeString ;;
       outputFile (generatedClientTSFilePath cm) clientString ;;
       unlinkIfExists (generatedClientJSFilePath cm) ;;
       unlinkIfExists (generatedTypesDFilePath cm) ;;
       unlinkIfExists (generatedTypesJSFilePath cm)
     else
       outputFile (generatedTypesDFilePath cm) codeString ;;
       jsCode ← call Transform (transform codeString);
       outputFile (generatedTypesJSFilePath cm) jsCode ;;
       outputFile (generatedClientJSFilePath cm) clientString ;;
       unlinkIfExists (generatedTypesTSFilePath cm) ;;
       unlinkIfExists (generatedClientTSFilePath cm)) ;;
    ret apiURL.

(** The constructor of the class. *)
Definition new_Codegen (port : option number) (schema : GraphQLSchema)
    (noSDK : bool) (queryDoc fragDoc : string) : Codegen :=
  {| port := port; schema := schema; noSDK := noSDK;
     queryDoc := queryDoc; fragDoc := fragDoc |}.

End Session.

Arguments Return {Ext A} a w.
Arguments Throw {Ext A} message w.
Arguments Exit {Ext A} code w.

(** ** commands/dev-command/index.ts *)

Module DevCommand.

(** What chokidar reports to the listeners of a watcher. *)
Inductive WatchEvent : Type :=
| Ready
| Add (file : string)
| Change (file : string)
| Unlink (file : string).

(** The options of the command that [setup] and the listeners read;
    [port] is the value of [Number(this.port)]. *)
Record t : Type := {
  port : number;
  verbose : bool;
  noWatch : bool;
  noSDK : bool;
}.

Section Dev.

Context `{Ext : Externals}.

(** [path.join] of two segments that need no normalisation. *)
Definition path_join (a b : string) : string := a +:+ "/" +:+ b.

(** [JSON.stringify({ schema, lookup, graphql })] on three objects
    given by their JSON text. *)
Definition lockFileContent (schemaObject lookupObject graphqlSchemaObject : string) : string :=
  "{" +:+ dq +:+ "schema" +:+ dq +:+ ":" +:+ schemaObject +:+
  "," +:+ dq +:+ "lookup" +:+ dq +:+ ":" +:+ lookupObject +:+
  "," +:+ dq +:+ "graphql" +:+ dq +:+ ":" +:+ graphqlSchemaObject +:+ "}".

(** [processConfig] fills in the session's manager. *)
Definition install_configManager (cm : ConfigManager) : M unit :=
  fun w => Return tt (set_configManager cm w).

Definition add_watcher (x : Watcher) : M unit :=
  fun w => Return tt (set_watchers (watchers w ++ [x]) w).

(** [watchQueries(configManager, callback)], where the callback is
    [async () => await codegen.execute()] for the given object. *)
Definition watchQueries (codegen : Codegen) : M unit :=
  cm ← this_configManager;
  call (ChokidarWatch [userQueriesAndFragmentsGlob cm]) (Ok tt) ;;
  add_watcher (QueryWatcher false codegen).

Definition watchContentFiles (database : Database) : M unit :=
  cm ← this_configManager;
  let collectionContentFiles :=
    map (fun collection =>
           path_join (contentRootPath cm) (coll_path collection)
           +:+ "/**/*." +:+ or_else (coll_format collection) "md")
        (collections (config cm)) in
  call (ChokidarWatch collectionContentFiles) (Ok tt) ;;
  add_watcher (ContentWatcher false database).

(** The listeners of the content watcher; the result is the value of
    the variable [ready] afterwards.  The indexer calls are not
    awaited, so they cannot throw into the listener. *)
Definition contentListener (ready : bool) (ev : WatchEvent) : M bool :=
  match ev with
  | Ready => ret true
  | Add addedFile =>
      if negb ready then ret ready
      else
        cm ← this_configManager;
        let pathFromRoot := printContentRelativePath cm addedFile in
        call (IndexContentByPaths [pathFromRoot]) (Ok tt) ;;
        ret ready
  | Change changedFile =>
      cm ← this_configManager;
      let pathFromRoot := printContentRelativePath cm changedFile in
      call (IndexContentByPaths [pathFromRoot]) (Ok tt) ;;
      ret ready
  | Unlink removedFile =>
      cm ← this_configManager;
      let pathFromRoot := printContentRelativePath cm removedFile in
      call (DeleteContentByPaths [pathFromRoot]) (Ok tt) ;;
      ret ready
  end.

(** The listeners of a query watcher. *)
Definition queryListener (callback : M string) (ready : bool) (ev : WatchEvent) : M bool :=
  match ev with
  | Ready => ret true
  | Add addedFile => callback ;; ret ready
  | Change changedFile => callback ;; ret ready
  | Unlink removedFile => callback ;; ret ready
  end.

Definition set_watcher (i : nat) (x : Watcher) : M unit :=
  fun w => Return tt (set_watchers (<[i:=x]> (watchers w)) w).

(** chokidar reports [ev] to the listeners of the [i]-th watcher. *)
Definition chokidar_emit (i : nat) (ev : WatchEvent) : M unit :=
  fun w =>
    match watchers w !! i with
    | None => Return tt w
    | Some (ContentWatcher ready database) =>
        (r ← contentListener ready ev;
         set_watcher i (ContentWatcher r database)) w
    | Some (QueryWatcher ready codegen) =>
        (r ← queryListener (execute codegen) ready ev;
         set_watcher i (QueryWatcher r codegen)) w
    end.

(** The closure [setup] of [execute]. *)
Definition setup (this : t) : M (string * Database) :=
  try_catch
    (src ← the_sources;
     cm ← call ProcessConfig (processConfig src);
     install_configManager cm)
    (fun e =>
       print LoggerError
         "Unable to start dev server, please fix your Tina config and try again" ;;
       print LoggerError e ;;
       (if verbose this then print ConsoleError e else ret tt) ;;
       process_exit 1) ;;
  cm ← this_configManager;
  src ← the_sources;
  database ← call CreateAndInitializeDatabase (createAndInitializeDatabase src cm);
  '(tinaSchema, graphQLSchema, queryDoc, fragDoc) ←
    call BuildSchema (buildSchema database (config cm));
  (if negb (isUsingLegacyFolder cm) then
     schemaObject ←
       call (Require (generatedSchemaJSONPath cm)) (requireJSON src (generatedSchemaJSONPath cm));
     lookupObject ←
       call (Require (generatedLookupJSONPath cm)) (requireJSON src (generatedLookupJSONPath cm));
     graphqlSchemaObject ←
       call (Require (generatedGraphQLJSONPath cm)) (requireJSON src (generatedGraphQLJSONPath cm));
     writeFileSync (path_join (tinaFolderPath cm) "tina-lock.json")
       (lockFileContent schemaObject lookupObject graphqlSchemaObject)
   else ret tt) ;;
  schema ← call GetASTSchema (getASTSchema database);
  let codegen :=
    new_Codegen (Some (port this)) schema (noSDK this) queryDoc fragDoc in
  apiURL ← execute codegen;
  (if negb (noWatch this) then watchQueries codegen else ret tt) ;;
  call IndexContent (indexContent src database tinaSchema graphQLSchema) ;;
  ret (apiURL, database).

(** The listener [execute] installs on [server.watcher] for
    ['change']. *)
Definition serverWatcher_onChange (this : t) (changedPath : string) : M unit :=
  if includes changedPath "__generated__" then ret tt
  else if includes changedPath "@tinacms/app" then ret tt
  else if includes changedPath "tinacms/dist" then ret tt
  else
    try_catch
      (setup this ;;
       print LoggerInfo "Tina config updated")
      (fun e => print LoggerError e).

(** [server.watcher] has a listener for ['change'] only. *)
Definition serverWatcher_emit (this : t) (ev : WatchEvent) : M unit :=
  match ev with
  | Change changedPath => serverWatcher_onChange this changedPath
  | _ => ret tt
  end.

End Dev.

End DevCommand.

(** ** Vocabulary of the properties *)

Section Vocabulary.

Context `{Ext : Externals}.

(** The effect of [unlinkIfExists] on the trace. *)
Definition unlinked (path : string) (disk : gmap string string) : list Event :=
  match disk !! path with
  | Some _ => [EUnlinkSync path]
  | None => []
  end.

(** *** Scripts

    What a run does to the disk and to the trace is described by a
    script: files put, files deleted if present, and other effects
    noted. *)
Inductive Step : Type :=
| Put (path content : string)       (* fs.outputFile *)
| Save (path content : string)      (* fs.writeFileSync *)
| Del (path : string)               (* unlinkIfExists *)
| Note (e : Event).

Definition apply_step (disk : gmap string string) (s : Step) : gmap string string :=
  match s with
  | Put p c | Save p c => <[p:=c]> disk
  | Del p => delete p disk
  | Note _ => disk
  end.

Definition apply_steps (script : list Step) (disk : gmap string string) : gmap string string :=
  foldl apply_step disk script.

Fixpoint effects_of (script : list Step) (disk : gmap string string) : list Event :=
  match script with
  | [] => []
  | s :: script =>
      match s with
      | Put p c => [EOutputFile p c]
      | Save p c => [EWriteFileSync p c]
      | Del p => unlinked p disk
      | Note e => [e]
      end ++ effects_of script (apply_step disk s)
  end.

Definition performed (script : list Step) (w : World) : World :=
  after (apply_steps script (files w)) (effects_of script (files w)) w.

(** What a script leaves at [path]: [Some (Some c)] for a file put
    last, [Some None] for a file deleted last, [None] if untouched. *)
Definition touch (path : string) (acc : option (option string)) (s : Step)
    : option (option string) :=
  match s with
  | Put p c | Save p c => if decide (p = path) then Some (Some c) else acc
  | Del p => if decide (p = path) then Some None else acc
  | Note _ => acc
  end.

Definition touched (script : list Step) (path : string) : option (option string) :=
  foldl (touch path) None script.

(** The effect of [maybeWarnFragmentSize] on the console for a
    document [doc]. *)
Definition advisory (doc : string) : list Event :=
  if (100 * 1024 <? N.of_nat (String.length doc))%N
  then [EPrint ConsoleWarn fragmentSizeWarning; EPrint ConsoleLog fragmentSizeSnippet]
  else [].

Definition is_print (e : Event) : Prop :=
  match e with EPrint _ _ => True | _ => False end.

(** The fields among branch, clientId and token that are absent, in
    this order. *)
Definition absentFields (c : Config) : list string :=
  (filter (fun f => truthy f.2 = false)
          [("branch", branch c); ("clientId", clientId c); ("token", token c)]).*1.

(** The seven files [removeGeneratedFilesIfExists] names. *)
Definition sdkFiles (cm : ConfigManager) : list string :=
  [generatedClientJSFilePath cm; generatedTypesDFilePath cm;
   generatedTypesJSFilePath cm; generatedTypesTSFilePath cm;
   generatedClientTSFilePath cm; generatedQueriesFilePath cm;
   generatedFragmentsFilePath cm].

(** The eight files [execute] writes or deletes. *)
Definition generatedFiles (cm : ConfigManager) : list string :=
  sdkFiles cm ++ [generatedGraphQLGQLPath cm].

(** The files of the active output mode, with the three documents
    common to both modes. *)
Definition activeFiles (cm : ConfigManager) : list string :=
  [generatedQueriesFilePath cm; generatedFragmentsFilePath cm;
   generatedGraphQLGQLPath cm]
  ++ (if isUsingTs cm
      then [generatedTypesTSFilePath cm; generatedClientTSFilePath cm]
      else [generatedTypesDFilePath cm; generatedTypesJSFilePath cm;
            generatedClientJSFilePath cm]).

(** The file the client code goes to. *)
Definition clientFile (cm : ConfigManager) : string :=
  if isUsingTs cm then generatedClientTSFilePath cm
  else generatedClientJSFilePath cm.

(** The files [execute] touches after the type generator ran. *)
Definition lateFiles (cm : ConfigManager) : list string :=
  [generatedGraphQLGQLPath cm;
   generatedTypesTSFilePath cm; generatedClientTSFilePath cm;
   generatedTypesDFilePath cm; generatedTypesJSFilePath cm;
   generatedClientJSFilePath cm].

(** The script of [execute] up to the call of the type generator. *)
Definition early_script (this : Codegen) (cm : ConfigManager) : list Step :=
  [Put (generatedQueriesFilePath cm) (queryDoc this);
   Put (generatedFragmentsFilePath cm) (fragDoc this);
   Note (EStat (generatedFragmentsFilePath cm))]
  ++ map Note (advisory (fragDoc this)).

(** The script of [execute] from there on, when nothing throws. *)
Definition late_script (this : Codegen) (cm : ConfigManager)
    (url typescriptTypes transpiled : string) : list Step :=
  [Note (ECall GenerateTypes); Note (ECall PrintSchema);
   Put (generatedGraphQLGQLPath cm) (schemaCode (printSchema (schema this)))]
  ++ (if isUsingTs cm then
        [Put (generatedTypesTSFilePath cm) (typesCode typescriptTypes);
         Put (generatedClientTSFilePath cm) (clientCode url (token (config cm)));
         Del (generatedClientJSFilePath cm);
         Del (generatedTypesDFilePath cm);
         Del (generatedTypesJSFilePath cm)]
      else
        [Put (generatedTypesDFilePath cm) (typesCode typescriptTypes);
         Note (ECall Transform);
         Put (generatedTypesJSFilePath cm) transpiled;
         Put (generatedClientJSFilePath cm) (clientCode url (token (config cm)));
         Del (generatedTypesTSFilePath cm);
         Del (generatedClientTSFilePath cm)]).

Definition sdk_script (this : Codegen) (cm : ConfigManager)
    (url typescriptTypes transpiled : string) : list Step :=
  early_script this cm ++ late_script this cm url typescriptTypes transpiled.

Definition noSDK_script (cm : ConfigManager) : list Step :=
  map Del (sdkFiles cm).

(** The disk the type generator reads in [execute]. *)
Definition disk_for_types (this : Codegen) (cm : ConfigManager)
    (disk : gmap string string) : gmap string string :=
  <[generatedFragmentsFilePath cm:=fragDoc this]>
    (<[generatedQueriesFilePath cm:=queryDoc this]> disk).

(** The type generator does not read the files that [execute] writes
    or deletes after calling it. *)
Definition types_ignore_late_files (cm : ConfigManager) : Prop :=
  forall s g1 g2 url src (disk disk' : gmap string string),
    (forall p, p ∉ lateFiles cm -> disk !! p = disk' !! p) ->
    generateTypes s g1 g2 url src disk = generateTypes s g1 g2 url src disk'.

(** [s] occurs in [t]. *)
Definition occurs_in (s t : string) : Prop :=
  exists pre post, t = pre +:+ s +:+ post.

(** The generated-output markers. *)
Definition generatedOutputMarkers : list string :=
  ["__generated__"; "@tinacms/app"; "tinacms/dist"].

Definition has_marker (path : string) : bool :=
  existsb (includes path) generatedOutputMarkers.

Definition file_of (ev : DevCommand.WatchEvent) : option string :=
  match ev with
  | DevCommand.Ready => None
  | DevCommand.Add f | DevCommand.Change f | DevCommand.Unlink f => Some f
  end.

(** A call to the content indexer. *)
Definition indexer_call (e : Event) : bool :=
  match e with
  | ECall IndexContent | ECall (IndexContentByPaths _) | ECall (DeleteContentByPaths _) => true
  | _ => false
  end.

(** [setup] begins with [processConfig], which nothing else calls: the
    call marks the start of a reconcile. *)
Definition reconcile_start (e : Event) : bool :=
  match e with
  | ECall ProcessConfig => true
  | _ => false
  end.

(** The effects of the code generator. *)
Definition codegen_effect (e : Event) : bool :=
  match e with
  | EOutputFile _ _ | EUnlinkSync _ | EStat _ => true
  | EPrint ConsoleWarn _ | EPrint ConsoleLog _ => true
  | ECall GenerateTypes | ECall PrintSchema | ECall Transform => true
  | _ => false
  end.

(** The effects that a run from [w] with outcome [o] added to the
    trace. *)
Definition added {A} (w : World) (o : outcome A) : list Event :=
  drop (length (events w)) (events (world_of o)).

(** No indexer call and no reconcile among the effects. *)
Definition quiet (d : list Event) : Prop :=
  forallb (fun e => negb (indexer_call e) && negb (reconcile_start e)) d = true.

(** Where an event delivered by a file watcher goes. *)
Inductive Target : Type :=
| Chokidar (i : nat)       (* the i-th chokidar watcher *)
| Server.                  (* server.watcher *)

Definition deliver (this : DevCommand.t) (tgt : Target) (ev : DevCommand.WatchEvent) : M unit :=
  match tgt with
  | Chokidar i => DevCommand.chokidar_emit i ev
  | Server => DevCommand.serverWatcher_emit this ev
  end.

(** The step of the reconcile an effect belongs to: loading the
    configuration (1), building the schema (2), persisting the lock
    file (3), generating code and writing its artifacts (4), watching
    the query documents (5), rebuilding the full index (6).  Indexing
    by paths (7) is what a content listener does and is no step of a
    reconcile; printing, raising and exiting belong to no step. *)
Definition step_of (e : Event) : option nat :=
  match e with
  | ECall ProcessConfig => Some 1
  | ECall CreateAndInitializeDatabase | ECall BuildSchema => Some 2
  | ECall (Require _) | EWriteFileSync _ _ => Some 3
  | ECall GetASTSchema
  | ECall GenerateTypes | ECall PrintSchema | ECall Transform
  | EOutputFile _ _ | EUnlinkSync _ | EStat _ => Some 4
  | ECall (ChokidarWatch _) => Some 5
  | ECall IndexContent => Some 6
  | ECall (IndexContentByPaths _) | ECall (DeleteContentByPaths _) => Some 7
  | EPrint _ _ | ERaise _ | EExit _ => None
  end.

(** *** The run of [setup] around the code generator *)

Definition lock_script (cm : ConfigManager)
    (schemaObject lookupObject graphqlSchemaObject : string) : list Step :=
  if isUsingLegacyFolder cm then []
  else
    [Note (ECall (Require (generatedSchemaJSONPath cm)));
     Note (ECall (Require (generatedLookupJSONPath cm)));
     Note (ECall (Require (generatedGraphQLJSONPath cm)));
     Save (DevCommand.path_join (tinaFolderPath cm) "tina-lock.json")
       (DevCommand.lockFileContent schemaObject lookupObject graphqlSchemaObject)].

Definition setup_prelude (cm : ConfigManager)
    (schemaObject lookupObject graphqlSchemaObject : string) : list Step :=
  [Note (ECall ProcessConfig); Note (ECall CreateAndInitializeDatabase);
   Note (ECall BuildSchema)]
  ++ lock_script cm schemaObject lookupObject graphqlSchemaObject
  ++ [Note (ECall GetASTSchema)].

(** The world in which [setup] calls [codegen.execute()]. *)
Definition before_codegen (cm : ConfigManager)
    (schemaObject lookupObject graphqlSchemaObject : string) (w : World) : World :=
  set_configManager cm
    (performed (setup_prelude cm schemaObject lookupObject graphqlSchemaObject) w).

(** What [setup] does after that call returned: the query watcher,
    unless [noWatch], then the full index. *)
Definition watch_effects (this : DevCommand.t) (cm : ConfigManager) : list Event :=
  if DevCommand.noWatch this then []
  else [ECall (ChokidarWatch [userQueriesAndFragmentsGlob cm])].

Definition after_codegen (this : DevCommand.t) (codegen : Codegen) (w : World) : World :=
  performed [Note (ECall IndexContent)]
    (set_watchers
       (watchers w
        ++ (if DevCommand.noWatch this then [] else [QueryWatcher false codegen]))
       (performed (map Note (watch_effects this (configManager w))) w)).

(** The index precedes the code generator in a trace. *)
Definition index_before_codegen (d : list Event) : Prop :=
  forall i j e,
    d !! i = Some (ECall IndexContent) ->
    d !! j = Some e -> codegen_effect e = true ->
    i < j.

(** A computation that never ends the process. *)
Definition never_exits {A} (m : M A) : Prop :=
  forall w c w', m w <> Exit c w'.

Definition steps (d : list Event) : list nat := omap step_of d.

(** A list of steps in ascending order, within bounds. *)
Definition ascending (lo hi : nat) (l : list nat) : Prop :=
  Forall (fun k => lo <= k <= hi) l /\ StronglySorted le l.

Definition raises (e : Event) : bool :=
  match e with ERaise _ => true | _ => false end.

Definition no_raise (d : list Event) : Prop := forallb (fun e => negb (raises e)) d = true.

(** A run that returns raised nothing; one that does not return
    raised once, and nothing of any step came after. *)
Definition halts {A} (o : outcome A) (d : list Event) : Prop :=
  match o with
  | Return _ _ => no_raise d
  | _ => exists d' e post,
      d = d' ++ ERaise e :: post /\ no_raise d' /\ no_raise post /\ steps post = []
  end.

Definition traced {A} (lo hi : nat) (m : M A) : Prop :=
  forall w, exists d,
    events (world_of (m w)) = events w ++ d
    /\ ascending lo hi (steps d)
    /\ halts (m w) d.

Inductive Scope : Type := ContentFiles | QueryFiles | ConfigFiles.

Definition scope_of (tgt : Target) (w : World) : option Scope :=
  match tgt with
  | Server => Some ConfigFiles
  | Chokidar i =>
      match watchers w !! i with
      | Some (ContentWatcher _ _) => Some ContentFiles
      | Some (QueryWatcher _ _) => Some QueryFiles
      | None => None
      end
  end.

Definition ready_of (tgt : Target) (w : World) : option bool :=
  match tgt with
  | Server => None
  | Chokidar i =>
      match watchers w !! i with
      | Some (ContentWatcher r _) | Some (QueryWatcher r _) => Some r
      | None => None
      end
  end.

End Vocabulary.

(** ** A sample session *)

Module Sample.

Definition manager (c : Config) (ts : bool) : ConfigManager :=
  {| config := c;
     generatedClientJSFilePath := "tina/__generated__/client.js";
     generatedTypesDFilePath := "tina/__generated__/types.d.ts";
     generatedTypesJSFilePath := "tina/__generated__/types.js";
     generatedTypesTSFilePath := "tina/__generated__/types.ts";
     generatedClientTSFilePath := "tina/__generated__/client.ts";
     generatedQueriesFilePath := "tina/__generated__/queries.gql";
     generatedFragmentsFilePath := "tina/__generated__/frags.gql";
     generatedGraphQLGQLPath := "tina/__generated__/schema.gql";
     generatedSchemaJSONPath := "tina/__generated__/_schema.json";
     generatedLookupJSONPath := "tina/__generated__/_lookup.json";
     generatedGraphQLJSONPath := "tina/__generated__/_graphql.json";
     tinaFolderPath := "tina";
     contentRootPath := "/site";
     userQueriesAndFragmentsGlob := "tina/queries/**/*.{graphql,gql}";
     generatedQueriesAndFragmentsGlob := "tina/__generated__/*.{graphql,gql}";
     isUsingLegacyFolder := false;
     isUsingTs := ts;
     getTinaGraphQLVersion := "1.4";
     printContentRelativePath := fun p => p |}.

Definition cloud_config (b c t : option string) : Config :=
  {| branch := b; clientId := c; token := t;
     contentApiUrlOverride := None; tinaioConfig := None;
     collections := [ {| coll_path := "content/posts"; coll_format := None |} ] |}.

Definition full_config : Config :=
  cloud_config (Some "main") (Some "abc") (Some "s3cr3t").

(** The sources say whether the configuration file is valid. *)
#[export] Instance sample_externals : Externals := {|
  Sources := bool;
  GraphQLSchema := string;
  DocumentNode := unit;
  TinaSchema := unit;
  Database := unit;
  printSchema := fun s => s;
  generateTypes := fun s _ _ url _ disk =>
    Ok ("export type Sdk = {} // " +:+ s +:+ " // "
        +:+ show (disk !! "tina/__generated__/queries.gql"));
  transform := fun c => Ok c;
  processConfig := fun valid =>
    if valid then Ok (manager full_config true)
    else Err "Invalid config: collection name is required";
  createAndInitializeDatabase := fun _ _ => Ok tt;
  buildSchema := fun _ _ => Ok (tt, tt, "query q { x }", "fragment f on X { x }");
  requireJSON := fun _ p => Ok "{}";
  getASTSchema := fun _ => Ok "type Query { x: Int }";
  indexContent := fun _ _ _ _ => Ok tt;
|}.

Definition world (valid : bool) (ts : bool) (ws : list Watcher) : World :=
  {| sources := valid; files := ∅; configManager := manager full_config ts;
     watchers := ws; events := [] |}.

Definition the_database : @Database sample_externals := tt.

(** A session whose only watcher is the content watcher. *)
Definition content_world (ready : bool) : World :=
  world true true [ContentWatcher ready the_database].

Definition command : DevCommand.t :=
  {| DevCommand.port := Int 4001; DevCommand.verbose := false;
     DevCommand.noWatch := false; DevCommand.noSDK := false |}.

Definition codegen (sdk : bool) : Codegen :=
  new_Codegen (Some (Int 4001)) "type Query { x: Int }" (negb sdk)
    "query q { x }" "fragment f on X { x }".

(** A disk on which an earlier run in the runtime mode left files. *)
Definition stale_world : World :=
  performed [Put "tina/__generated__/client.js" "stale";
             Put "tina/__generated__/types.js" "stale"]
    (world true true []).

(** A document of [n] bytes. *)
Fixpoint document (n : nat) : string :=
  match n with
  | 0 => ""
  | S n => String "x" (document n)
  end.

(** A generator whose fragment document has 150 KiB. *)
Definition big_codegen : Codegen :=
  new_Codegen (Some (Int 4001)) "type Query { x: Int }" false
    "query q { x }" (document (150 * 1024)).

End Sample.

(** ** More vocabulary, and scenarios in which a collaborator fails *)

Section MoreVocabulary.
Context `{Ext : Externals}.

(** The files a script names. *)
Definition paths_of (script : list Step) : list string :=
  omap (fun s => match s with
                 | Put p _ | Save p _ | Del p => Some p
                 | Note _ => None
                 end) script.

(** The lock file of the session. *)
Definition lockFile (cm : ConfigManager) : string :=
  DevCommand.path_join (tinaFolderPath cm) "tina-lock.json".

End MoreVocabulary.

Module Scenario.

(** The collaborator that fails in a scenario. *)
Inductive Fault : Type :=
| TypesFail | TransformFail | DatabaseFail | IndexFail.

Definition fails (f g : Fault) : bool :=
  match f, g with
  | TypesFail, TypesFail | TransformFail, TransformFail
  | DatabaseFail, DatabaseFail | IndexFail, IndexFail => true
  | _, _ => false
  end.

(** The local configuration of a project that is not connected to the
    cloud: no branch, no client id, no token. *)
Definition local_config : Config := Sample.cloud_config None None None.

(** Collaborators like those of the sample session, one of which
    throws; the configuration is the local one, in the runtime mode. *)
Definition faulty (f : Fault) : Externals := {|
  Sources := unit;
  GraphQLSchema := string;
  DocumentNode := unit;
  TinaSchema := unit;
  Database := unit;
  printSchema := fun s => s;
  generateTypes := fun s _ _ url _ disk =>
    if fails f TypesFail then Err "Unknown fragment"
    else Ok ("export type Sdk = {} // " +:+ s);
  transform := fun c =>
    if fails f TransformFail then Err "Transform failed" else Ok c;
  processConfig := fun _ => Ok (Sample.manager local_config false);
  createAndInitializeDatabase := fun _ _ =>
    if fails f DatabaseFail then Err "Database is locked" else Ok tt;
  buildSchema := fun _ _ => Ok (tt, tt, "query q { x }", "fragment f on X { x }");
  requireJSON := fun _ p => Ok "{}";
  getASTSchema := fun _ => Ok "type Query { x: Int }";
  indexContent := fun _ _ _ _ =>
    if fails f IndexFail then Err "Index failed" else Ok tt;
|}.

Definition faulty_world (f : Fault) (disk : gmap string string) : @World (faulty f) :=
  @Build_World (faulty f) tt disk (Sample.manager local_config false) [] [].

Definition faulty_codegen (f : Fault) : @Codegen (faulty f) :=
  @new_Codegen (faulty f) (Some (Int 4001)) "type Query { x: Int }" false
    "query q { x }" "fragment f on X { x }".

(** A generator of a build outside the dev session: no port. *)
Definition cloud_codegen : @Codegen Sample.sample_externals :=
  @new_Codegen Sample.sample_externals None "type Query { x: Int }" false
    "query q { x }" "fragment f on X { x }".

(** A session whose configuration names no cloud project. *)
Definition local_world (ts : bool) : @World Sample.sample_externals :=
  @Build_World Sample.sample_externals true ∅ (Sample.manager local_config ts) [] [].

End Scenario.

(** * Properties *)

(** ** How the primitives run *)

Section Runs.

Context `{Ext : Externals}.

Lemma bind_run {A B} (m : M A) (f : A -> M B) (w : World) :
  (m ≫= f) w =
  match m w with
  | Return a w' => f a w'
  | Throw e w' => Throw e w'
  | Exit c w' => Exit c w'
  end.
Proof. reflexivity. Qed.

Lemma after_nothing (w : World) : after (files w) [] w = w.
Proof. destruct w; unfold after; simpl. by rewrite app_nil_r. Qed.

Lemma after_after disk1 d1 disk2 d2 (w : World) :
  after disk2 d2 (after disk1 d1 w) = after disk2 (d1 ++ d2) w.
Proof. unfold after; simpl. by rewrite app_assoc. Qed.

Lemma apply_steps_app s1 s2 disk :
  apply_steps (s1 ++ s2) disk = apply_steps s2 (apply_steps s1 disk).
Proof. unfold apply_steps. apply foldl_app. Qed.

Lemma effects_of_app s1 s2 disk :
  effects_of (s1 ++ s2) disk
  = effects_of s1 disk ++ effects_of s2 (apply_steps s1 disk).
Proof.
  revert disk. induction s1 as [|s s1 IH]; intros disk; simpl; [done|].
  by rewrite IH, app_assoc.
Qed.

Lemma performed_nil (w : World) : performed [] w = w.
Proof. apply after_nothing. Qed.

Lemma performed_app s1 s2 (w : World) :
  performed s2 (performed s1 w) = performed (s1 ++ s2) w.
Proof.
  unfold performed. rewrite after_after. simpl.
  by rewrite apply_steps_app, effects_of_app.
Qed.

Lemma apply_steps_notes d disk : apply_steps (map Note d) disk = disk.
Proof. induction d as [|e d IH]; simpl; auto. Qed.

Lemma effects_of_notes d disk : effects_of (map Note d) disk = d.
Proof. induction d as [|e d IH]; simpl; [done|]. by rewrite IH. Qed.

Lemma files_performed s (w : World) : files (performed s w) = apply_steps s (files w).
Proof. reflexivity. Qed.

Lemma events_performed s (w : World) :
  events (performed s w) = events w ++ effects_of s (files w).
Proof. reflexivity. Qed.

(** What a script leaves at a path. *)
Lemma lookup_apply_steps script disk path :
  apply_steps script disk !! path = default (disk !! path) (touched script path).
Proof.
  induction script as [|s script IH] using rev_ind; [done|].
  unfold touched. rewrite apply_steps_app, foldl_app. simpl.
  fold (touched script path).
  destruct s as [p c|p c|p|e]; simpl; [| | |done].
  - rewrite lookup_insert. by case_decide.
  - rewrite lookup_insert. by case_decide.
  - rewrite lookup_delete. by case_decide.
Qed.

Lemma touched_app s1 s2 path :
  touched (s1 ++ s2) path = foldl (touch path) (touched s1 path) s2.
Proof. unfold touched. apply foldl_app. Qed.

Lemma apply_steps_twice script disk :
  apply_steps script (apply_steps script disk) = apply_steps script disk.
Proof.
  apply map_eq; intros path. rewrite !lookup_apply_steps.
  by destruct (touched script path).
Qed.

Lemma ret_run {A} (a : A) (w : World) : ret a w = Return a w.
Proof. reflexivity. Qed.

Lemma this_configManager_run (w : World) :
  this_configManager w = Return (configManager w) w.
Proof. reflexivity. Qed.

Lemma the_sources_run (w : World) : the_sources w = Return (sources w) w.
Proof. reflexivity. Qed.

Lemma the_files_run (w : World) : the_files w = Return (files w) w.
Proof. reflexivity. Qed.

Lemma emit_run e (w : World) : emit e w = Return tt (performed [Note e] w).
Proof. reflexivity. Qed.

Lemma print_run ch text (w : World) :
  print ch text w = Return tt (performed [Note (EPrint ch text)] w).
Proof. reflexivity. Qed.

Lemma raise_run {A} e (w : World) :
  raise (A:=A) e w = Throw e (performed [Note (ERaise e)] w).
Proof. reflexivity. Qed.

Lemma process_exit_run {A} c (w : World) :
  process_exit (A:=A) c w = Exit c (performed [Note (EExit c)] w).
Proof. reflexivity. Qed.

Lemma call_ok {A} c (r : result A) a :
  r = Ok a ->
  forall w : World, call c r w = Return a (performed [Note (ECall c)] w).
Proof. intros ->. reflexivity. Qed.

Lemma call_err {A} c (r : result A) e :
  r = Err e ->
  forall w : World,
    call c r w = Throw e (performed [Note (ECall c); Note (ERaise e)] w).
Proof.
  intros -> w. unfold call. rewrite bind_run, emit_run. cbv beta iota.
  simpl throwing. by rewrite raise_run, performed_app.
Qed.

Lemma outputFile_run path content (w : World) :
  outputFile path content w = Return tt (performed [Put path content] w).
Proof. reflexivity. Qed.

Lemma unlinkIfExists_run path (w : World) :
  unlinkIfExists path w = Return tt (performed [Del path] w).
Proof.
  unfold unlinkIfExists, performed. rewrite bind_run.
  unfold existsSync, unlinkSync. simpl. unfold unlinked.
  destruct (files w !! path) as [c|] eqn:E.
  - rewrite bool_decide_eq_true_2 by eauto. rewrite E. reflexivity.
  - rewrite bool_decide_eq_false_2 by (intros [? ?]; congruence).
    rewrite delete_id by done. by rewrite after_nothing.
Qed.

Lemma maybeWarnFragmentSize_run path doc (w : World) :
  files w !! path = Some doc ->
  maybeWarnFragmentSize path w
  = Return tt (performed (Note (EStat path) :: map Note (advisory doc)) w).
Proof.
  intros E. unfold maybeWarnFragmentSize, advisory. rewrite bind_run.
  unfold stat_size. rewrite E.
  destruct (100 * 1024 <? N.of_nat (String.length doc))%N.
  - rewrite bind_run, !print_run.
    change (record (EStat path) w) with (performed [Note (EStat path)] w).
    by rewrite !performed_app.
  - reflexivity.
Qed.

Lemma this_getApiURL_run this url (w : World) :
  getApiURL (configManager w) (port this) = Ok url ->
  this_getApiURL this w = Return url w.
Proof.
  intros E. unfold this_getApiURL. rewrite bind_run, this_configManager_run.
  cbv beta iota. by rewrite E.
Qed.

Lemma this_getApiURL_fail this e (w : World) :
  getApiURL (configManager w) (port this) = Err e ->
  this_getApiURL this w = Throw e (performed [Note (ERaise e)] w).
Proof.
  intros E. unfold this_getApiURL. rewrite bind_run, this_configManager_run.
  cbv beta iota. by rewrite E.
Qed.

End Runs.

Ltac run_by lem := rewrite bind_run, lem; cbv beta iota.

(** ** How [execute] runs *)

Section CodegenRuns.

Context `{Ext : Externals}.

Lemma genClient_run this url (w : World) :
  getApiURL (configManager w) (port this) = Ok url ->
  genClient this w
  = Return (url, clientCode url (token (config (configManager w)))) w.
Proof.
  intros E. unfold genClient. run_by this_configManager_run.
  run_by (this_getApiURL_run _ _ _ E). reflexivity.
Qed.

Lemma genTypes_run this url ts (w : World) :
  getApiURL (configManager w) (port this) = Ok url ->
  generateTypes (schema this)
    (userQueriesAndFragmentsGlob (configManager w))
    (generatedQueriesAndFragmentsGlob (configManager w))
    url (sources w) (files w) = Ok ts ->
  genTypes this w
  = Return (typesCode ts, schemaCode (printSchema (schema this)))
      (performed [Note (ECall GenerateTypes); Note (ECall PrintSchema)] w).
Proof.
  intros E G. unfold genTypes. run_by this_configManager_run.
  run_by (this_getApiURL_run _ _ _ E). run_by the_sources_run. run_by the_files_run.
  run_by (call_ok GenerateTypes _ _ G).
  rewrite bind_run, (call_ok PrintSchema _ (printSchema (schema this)) eq_refl).
  cbv beta iota. by rewrite ret_run, performed_app.
Qed.

Lemma genTypes_fail this url e (w : World) :
  getApiURL (configManager w) (port this) = Ok url ->
  generateTypes (schema this)
    (userQueriesAndFragmentsGlob (configManager w))
    (generatedQueriesAndFragmentsGlob (configManager w))
    url (sources w) (files w) = Err e ->
  genTypes this w
  = Throw e (performed [Note (ECall GenerateTypes); Note (ERaise e)] w).
Proof.
  intros E G. unfold genTypes. run_by this_configManager_run.
  run_by (this_getApiURL_run _ _ _ E). run_by the_sources_run. run_by the_files_run.
  by run_by (call_err GenerateTypes _ _ G).
Qed.

Lemma files_early this cm (w : World) :
  files (performed (early_script this cm) w) = disk_for_types this cm (files w).
Proof.
  rewrite files_performed. unfold early_script.
  by rewrite apply_steps_app, apply_steps_notes.
Qed.

(** The run of [execute] up to the type generator. *)
Lemma execute_early this url (w : World) :
  let cm := configManager w in
  noSDK this = false ->
  getApiURL cm (port this) = Ok url ->
  execute this w
  = ('(codeString, schemaString) ← genTypes this;
     outputFile (generatedGraphQLGQLPath cm) schemaString ;;
     (if isUsingTs cm then
        outputFile (generatedTypesTSFilePath cm) codeString ;;
        outputFile (generatedClientTSFilePath cm) (clientCode url (token (config cm))) ;;
        unlinkIfExists (generatedClientJSFilePath cm) ;;
        unlinkIfExists (generatedTypesDFilePath cm) ;;
        unlinkIfExists (generatedTypesJSFilePath cm)
      else
        outputFile (generatedTypesDFilePath cm) codeString ;;
        jsCode ← call Transform (transform codeString);
        outputFile (generatedTypesJSFilePath cm) jsCode ;;
        outputFile (generatedClientJSFilePath cm) (clientCode url (token (config cm))) ;;
        unlinkIfExists (generatedTypesTSFilePath cm) ;;
        unlinkIfExists (generatedClientTSFilePath cm)) ;;
     ret url) (performed (early_script this cm) w).
Proof.
  intros cm N U. unfold execute.
  run_by this_configManager_run. fold cm.
  run_by (this_getApiURL_run _ _ _ U). rewrite N.
  run_by outputFile_run. run_by outputFile_run. rewrite performed_app.
  rewrite bind_run, (maybeWarnFragmentSize_run _ (fragDoc this)); cbv beta iota.
  2:{ rewrite files_performed. simpl. apply lookup_insert_eq. }
  rewrite performed_app.
  rewrite bind_run, (genClient_run _ url) by exact U. cbv beta iota.
  reflexivity.
Qed.

Lemma execute_sdk_run this url ts js (w : World) :
  let cm := configManager w in
  noSDK this = false ->
  getApiURL cm (port this) = Ok url ->
  generateTypes (schema this)
    (userQueriesAndFragmentsGlob cm) (generatedQueriesAndFragmentsGlob cm)
    url (sources w) (disk_for_types this cm (files w)) = Ok ts ->
  (isUsingTs cm = false -> transform (typesCode ts) = Ok js) ->
  execute this w = Return url (performed (sdk_script this cm url ts js) w).
Proof.
  intros cm N U G T. rewrite (execute_early _ url) by done. fold cm.
  rewrite bind_run, (genTypes_run _ url ts); cbv beta iota;
    [ | exact U | by rewrite files_early ].
  rewrite performed_app. run_by outputFile_run. rewrite performed_app.
  unfold sdk_script, late_script.
  destruct (isUsingTs cm) eqn:TS.
  - rewrite bind_run. run_by outputFile_run. run_by outputFile_run.
    run_by unlinkIfExists_run. run_by unlinkIfExists_run. rewrite unlinkIfExists_run.
    cbv beta iota. rewrite !performed_app, ret_run.
    do 2 f_equal. rewrite <- !app_assoc. reflexivity.
  - rewrite bind_run. run_by outputFile_run.
    run_by (call_ok Transform _ js (T eq_refl)).
    run_by outputFile_run. run_by outputFile_run.
    run_by unlinkIfExists_run. rewrite unlinkIfExists_run.
    cbv beta iota. rewrite !performed_app, ret_run.
    do 2 f_equal. rewrite <- !app_assoc. reflexivity.
Qed.

Lemma execute_types_fail this url e (w : World) :
  let cm := configManager w in
  noSDK this = false ->
  getApiURL cm (port this) = Ok url ->
  generateTypes (schema this)
    (userQueriesAndFragmentsGlob cm) (generatedQueriesAndFragmentsGlob cm)
    url (sources w) (disk_for_types this cm (files w)) = Err e ->
  execute this w
  = Throw e (performed (early_script this cm
                        ++ [Note (ECall GenerateTypes); Note (ERaise e)]) w).
Proof.
  intros cm N U G. rewrite (execute_early _ url) by done. fold cm.
  rewrite bind_run, (genTypes_fail _ url e); cbv beta iota;
    [ | exact U | by rewrite files_early ].
  by rewrite performed_app.
Qed.

Lemma execute_transform_fail this url ts e (w : World) :
  let cm := configManager w in
  noSDK this = false ->
  getApiURL cm (port this) = Ok url ->
  generateTypes (schema this)
    (userQueriesAndFragmentsGlob cm) (generatedQueriesAndFragmentsGlob cm)
    url (sources w) (disk_for_types this cm (files w)) = Ok ts ->
  isUsingTs cm = false ->
  transform (typesCode ts) = Err e ->
  execute this w
  = Throw e (performed (early_script this cm
                        ++ [Note (ECall GenerateTypes); Note (ECall PrintSchema);
                            Put (generatedGraphQLGQLPath cm)
                              (schemaCode (printSchema (schema this)));
                            Put (generatedTypesDFilePath cm) (typesCode ts);
                            Note (ECall Transform); Note (ERaise e)]) w).
Proof.
  intros cm N U G TS T. rewrite (execute_early _ url) by done. fold cm.
  rewrite bind_run, (genTypes_run _ url ts); cbv beta iota;
    [ | exact U | by rewrite files_early ].
  rewrite performed_app. run_by outputFile_run. rewrite performed_app.
  rewrite TS. rewrite bind_run. run_by outputFile_run.
  run_by (call_err Transform _ _ T).
  rewrite !performed_app. do 2 f_equal. by rewrite <- !app_assoc.
Qed.

Lemma execute_noSDK_run this url (w : World) :
  noSDK this = true ->
  getApiURL (configManager w) (port this) = Ok url ->
  execute this w = Return url (performed (noSDK_script (configManager w)) w).
Proof.
  intros N U. unfold execute.
  run_by this_configManager_run.
  run_by (this_getApiURL_run _ _ _ U). rewrite N.
  unfold removeGeneratedFilesIfExists.
  rewrite bind_run. run_by this_configManager_run.
  do 6 run_by unlinkIfExists_run. rewrite unlinkIfExists_run.
  cbv beta iota. by rewrite !performed_app, ret_run.
Qed.

Lemma execute_apiURL_fail this e (w : World) :
  getApiURL (configManager w) (port this) = Err e ->
  execute this w = Throw e (performed [Note (ERaise e)] w).
Proof.
  intros U. unfold execute.
  run_by this_configManager_run.
  by run_by (this_getApiURL_fail _ _ _ U).
Qed.

(** A run of [execute] that returns. *)
Lemma execute_inv this url (w w' : World) :
  let cm := configManager w in
  execute this w = Return url w' ->
  getApiURL cm (port this) = Ok url
  /\ (if noSDK this then w' = performed (noSDK_script cm) w
      else exists ts js,
          generateTypes (schema this)
            (userQueriesAndFragmentsGlob cm) (generatedQueriesAndFragmentsGlob cm)
            url (sources w) (disk_for_types this cm (files w)) = Ok ts
          /\ (isUsingTs cm = false -> transform (typesCode ts) = Ok js)
          /\ w' = performed (sdk_script this cm url ts js) w).
Proof.
  intros cm H.
  destruct (getApiURL cm (port this)) as [u|e] eqn:U.
  2:{ by rewrite (execute_apiURL_fail _ _ _ U) in H. }
  destruct (noSDK this) eqn:N.
  { rewrite (execute_noSDK_run _ _ _ N U) in H. by inversion H. }
  destruct (generateTypes (schema this)
              (userQueriesAndFragmentsGlob cm) (generatedQueriesAndFragmentsGlob cm)
              u (sources w) (disk_for_types this cm (files w))) as [ts|e] eqn:G.
  2:{ by rewrite (execute_types_fail _ _ _ _ N U G) in H. }
  destruct (isUsingTs cm) eqn:TS.
  { rewrite (execute_sdk_run _ u ts "" w N U G) in H by (fold cm; congruence).
    inversion H; subst. split; [done|]. by exists ts, "". }
  destruct (transform (typesCode ts)) as [js|e] eqn:T.
  2:{ by rewrite (execute_transform_fail _ _ _ _ _ N U G TS T) in H. }
  rewrite (execute_sdk_run _ u ts js w N U G) in H by done.
  inversion H; subst. split; [done|]. by exists ts, js.
Qed.

End CodegenRuns.

(** ** API URL resolution *)

Lemma missingFields_absent (cm : ConfigManager) :
  missingFields cm = absentFields (config cm).
Proof.
  unfold missingFields, absentFields.
  rewrite !filter_cons, filter_nil. simpl.
  destruct (truthy (branch (config cm))), (truthy (clientId (config cm))),
    (truthy (token (config cm))); simpl; repeat case_decide; done.
Qed.

(** C5.  With no override URL and no port, when one of branch, clientId
    and token is absent, [getApiURL] throws an error whose message lists
    the absent fields, and only those, in the order branch, clientId,
    token; when the three are present, or an override or a port is
    given, it returns a URL.  Absent and given are what the code tests:
    [undefined], the empty string, [0] and [NaN] count as absent. *)
Theorem getApiURL_reports_missing_fields (cm : ConfigManager) (port : option number) :
  let c := config cm in
  (truthy (contentApiUrlOverride c) = false ->
   truthy_number port = false ->
   truthy (branch c) && truthy (clientId c) && truthy (token c) = false ->
   getApiURL cm port
   = Err ("Client not configured properly. Missing "
          +:+ join ", " (absentFields c)
          +:+ ". Please visit https://tina.io/docs/tina-cloud/connecting-site/ for more information"))
  /\ (truthy (branch c) && truthy (clientId c) && truthy (token c) = true
      \/ truthy (contentApiUrlOverride c) = true
      \/ truthy_number port = true ->
      exists url, getApiURL cm port = Ok url).
Proof.
  intros c. unfold getApiURL. rewrite missingFields_absent. fold c. split.
  - intros -> -> H. simpl. rewrite andb_true_r.
    destruct (truthy (branch c)), (truthy (clientId c)), (truthy (token c));
      simpl in *; done.
  - intros [H|[->| ->]].
    + apply andb_true_iff in H as [H ->]. apply andb_true_iff in H as [-> ->].
      simpl. eauto.
    + rewrite andb_false_r. eauto.
    + rewrite andb_false_r. simpl. eauto.
Qed.

Lemma getApiURL_reports_missing_fields_witness :
  getApiURL (Sample.manager (Sample.cloud_config None (Some "abc") None) true) None
  = Err "Client not configured properly. Missing branch, token. Please visit https://tina.io/docs/tina-cloud/connecting-site/ for more information"
  /\ exists url,
      getApiURL (Sample.manager (Sample.cloud_config None None None) true)
        (Some (Int 4001)) = Ok url.
Proof.
  split.
  - apply (proj1 (getApiURL_reports_missing_fields
                    (Sample.manager (Sample.cloud_config None (Some "abc") None) true)
                    None)); reflexivity.
  - apply (proj2 (getApiURL_reports_missing_fields
                    (Sample.manager (Sample.cloud_config None None None) true)
                    (Some (Int 4001)))).
    right; right; reflexivity.
Defined.

(** ** What [execute] leaves on the disk *)

(** The pairwise inequalities of the paths of a duplicate-free list. *)
Ltac distinct_paths H :=
  unfold generatedFiles, sdkFiles in H; simpl in H;
  repeat (apply NoDup_cons in H; destruct H as [? H]);
  repeat match goal with
         | N : _ ∉ _ :: _ |- _ =>
             apply not_elem_of_cons in N; destruct N as [? ?]
         end.

Ltac decide_paths :=
  repeat first
    [ rewrite decide_True by reflexivity
    | rewrite decide_False by (assumption || (apply not_eq_sym; assumption)) ].

Section Disk.

Context `{Ext : Externals}.

Lemma foldl_touch_notes path acc d :
  foldl (touch path) acc (map Note d) = acc.
Proof. revert acc. induction d as [|e d IH]; intros acc; simpl; auto. Qed.

Lemma sdk_script_leaves this cm url ts js disk :
  NoDup (generatedFiles cm) ->
  let disk' := apply_steps (sdk_script this cm url ts js) disk in
  disk' !! generatedQueriesFilePath cm = Some (queryDoc this)
  /\ disk' !! generatedFragmentsFilePath cm = Some (fragDoc this)
  /\ disk' !! generatedGraphQLGQLPath cm
     = Some (schemaCode (printSchema (schema this)))
  /\ if isUsingTs cm then
       disk' !! generatedTypesTSFilePath cm = Some (typesCode ts)
       /\ disk' !! generatedClientTSFilePath cm
          = Some (clientCode url (token (config cm)))
       /\ disk' !! generatedClientJSFilePath cm = None
       /\ disk' !! generatedTypesDFilePath cm = None
       /\ disk' !! generatedTypesJSFilePath cm = None
     else
       disk' !! generatedTypesDFilePath cm = Some (typesCode ts)
       /\ disk' !! generatedTypesJSFilePath cm = Some js
       /\ disk' !! generatedClientJSFilePath cm
          = Some (clientCode url (token (config cm)))
       /\ disk' !! generatedTypesTSFilePath cm = None
       /\ disk' !! generatedClientTSFilePath cm = None.
Proof.
  intros D disk'. subst disk'. distinct_paths D.
  rewrite !lookup_apply_steps.
  unfold sdk_script, early_script, late_script.
  rewrite !touched_app, !foldl_touch_notes.
  destruct (isUsingTs cm); unfold touched; simpl; decide_paths; done.
Qed.

(** Deleting files touches no other file. *)
Lemma lookup_apply_dels paths disk path :
  apply_steps (map Del paths) disk !! path
  = if decide (path ∈ paths) then None else disk !! path.
Proof.
  revert disk. induction paths as [|p paths IH]; intros disk.
  - destruct (decide (path ∈ [])); [set_solver|done].
  - change (apply_steps (map Del (p :: paths)) disk)
      with (apply_steps (map Del paths) (delete p disk)).
    rewrite IH.
    destruct (decide (path ∈ paths)) as [I|I],
      (decide (path ∈ p :: paths)) as [J|J]; try done.
    + exfalso. apply J. by apply elem_of_cons; right.
    + apply elem_of_cons in J as [->|J]; [apply lookup_delete_eq|done].
    + apply lookup_delete_ne. intros ->. apply J. by apply elem_of_cons; left.
Qed.

Lemma effects_of_dels paths (disk0 disk : gmap string string) :
  (forall p, is_Some (disk !! p) -> is_Some (disk0 !! p)) ->
  Forall (fun e => exists p, e = EUnlinkSync p /\ p ∈ paths /\ is_Some (disk0 !! p))
         (effects_of (map Del paths) disk).
Proof.
  revert disk. induction paths as [|p paths IH]; intros disk Sub; simpl; [done|].
  apply Forall_app. split.
  - unfold unlinked. destruct (disk !! p) eqn:E; [|done].
    repeat constructor. exists p. split; [done|]. split; [set_solver|].
    apply Sub. by rewrite E.
  - eapply Forall_impl.
    + apply IH. intros q [c Q]. apply Sub.
      apply lookup_delete_Some in Q as [_ Q]. by rewrite Q.
    + intros e (q & -> & ? & ?). exists q. set_solver.
Qed.

End Disk.

(** C9.  With [noSDK] set, [execute] first resolves the API URL: if that
    throws, the error is thrown and the disk is left alone; otherwise
    the URL is returned, the only effects are deletions of those among
    the seven generated files that exist, none of the seven is on the
    disk afterwards and every other file is as before. *)
Theorem execute_noSDK_removes_sdk_files `{Ext : Externals} (this : Codegen) (w : World) :
  let cm := configManager w in
  noSDK this = true ->
  match getApiURL cm (port this) with
  | Err e => exists w', execute this w = Throw e w' /\ files w' = files w
  | Ok url =>
      exists w' d,
        execute this w = Return url w'
        /\ events w' = events w ++ d
        /\ Forall (fun e => exists p, e = EUnlinkSync p /\ p ∈ sdkFiles cm
                                      /\ is_Some (files w !! p)) d
        /\ (forall p, p ∈ sdkFiles cm -> files w' !! p = None)
        /\ (forall p, p ∉ sdkFiles cm -> files w' !! p = files w !! p)
  end.
Proof.
  intros cm N. destruct (getApiURL cm (port this)) as [url|e] eqn:U.
  - exists (performed (noSDK_script cm) w), (effects_of (noSDK_script cm) (files w)).
    split; [by apply execute_noSDK_run|]. split; [done|].
    split; [by apply effects_of_dels|].
    split; intros p Hp; rewrite files_performed; unfold noSDK_script;
      rewrite lookup_apply_dels; by case_decide.
  - eexists. split; [by apply execute_apiURL_fail|done].
Qed.

Lemma execute_noSDK_removes_sdk_files_witness :
  exists w' d,
    execute (Sample.codegen false)
      (performed [Put "tina/__generated__/client.ts" "old"; Put "notes.md" "mine"]
         (Sample.world true true [])) = Return "http://localhost:4001/graphql" w'
    /\ events w' = [EOutputFile "tina/__generated__/client.ts" "old";
                    EOutputFile "notes.md" "mine"] ++ d
    /\ files w' !! "tina/__generated__/client.ts" = None
    /\ files w' !! "notes.md" = Some "mine".
Proof.
  destruct (execute_noSDK_removes_sdk_files (Sample.codegen false)
              (performed [Put "tina/__generated__/client.ts" "old"; Put "notes.md" "mine"]
                 (Sample.world true true [])) eq_refl)
    as (w' & d & E & Ev & _ & Gone & Kept).
  exists w', d. split; [exact E|]. split; [exact Ev|]. split.
  - apply Gone. apply (bool_decide_unpack _). vm_compute. exact I.
  - rewrite Kept; [reflexivity|]. apply (bool_decide_unpack _). vm_compute. exact I.
Defined.

(** An element is in a list of alternatives, or in none of them. *)
Ltac one_of_them := first [ left; reflexivity | right; one_of_them ].

Ltac none_of_them I :=
  exfalso; repeat (destruct I as [I|I]; [congruence|]); exact I.

(** C6.  After an execution of [execute] that returns, with SDK
    generation enabled and the eight generated paths pairwise distinct,
    a generated path holds a file exactly when it belongs to the active
    output mode: the typed client and types in the statically-typed
    mode, the declaration file, the transpiled types and the client in
    the runtime mode, and the three documents in both. *)
Theorem execute_keeps_only_active_mode `{Ext : Externals}
    (this : Codegen) (url : string) (w w' : World) :
  let cm := configManager w in
  noSDK this = false ->
  NoDup (generatedFiles cm) ->
  execute this w = Return url w' ->
  forall p, p ∈ generatedFiles cm ->
    (is_Some (files w' !! p) <-> p ∈ activeFiles cm).
Proof.
  intros cm N D E p Hp.
  apply execute_inv in E as [_ E]. rewrite N in E.
  destruct E as (ts & js & _ & _ & ->). fold cm. rewrite files_performed.
  pose proof (sdk_script_leaves this cm url ts js (files w) D) as L.
  cbv zeta in L. destruct L as (Lq & Lf & Lg & L).
  distinct_paths D. unfold generatedFiles, sdkFiles, activeFiles in *.
  simpl in Hp. rewrite !elem_of_cons in Hp.
  destruct (isUsingTs cm); destruct L as (L1 & L2 & L3 & L4 & L5);
    destruct Hp as [->|[->|[->|[->|[->|[->|[->|[->|Hp]]]]]]]];
    try (by apply elem_of_nil in Hp);
    rewrite ?Lq, ?Lf, ?Lg, ?L1, ?L2, ?L3, ?L4, ?L5;
    simpl; rewrite !elem_of_cons, elem_of_nil;
    (split; intros I;
     [ first [ by apply is_Some_None in I | one_of_them ]
     | first [ by eexists | none_of_them I ] ]).
Qed.


Lemma sample_paths_distinct :
  NoDup (generatedFiles (configManager Sample.stale_world)).
Proof. apply (bool_decide_unpack _). vm_compute. exact I. Qed.

Lemma sample_execute_returns :
  execute (Sample.codegen true) Sample.stale_world
  = Return "http://localhost:4001/graphql"
      (world_of (execute (Sample.codegen true) Sample.stale_world)).
Proof. vm_compute. reflexivity. Qed.

Lemma execute_keeps_only_active_mode_witness :
  execute (Sample.codegen true) Sample.stale_world
  = Return "http://localhost:4001/graphql"
      (world_of (execute (Sample.codegen true) Sample.stale_world))
  /\ is_Some (files (world_of (execute (Sample.codegen true) Sample.stale_world))
               !! "tina/__generated__/client.ts")
  /\ ~ is_Some (files (world_of (execute (Sample.codegen true) Sample.stale_world))
                 !! "tina/__generated__/client.js")
  /\ ~ is_Some (files (world_of (execute (Sample.codegen true) Sample.stale_world))
                 !! "tina/__generated__/types.js").
Proof.
  split; [exact sample_execute_returns|].
  pose proof (fun p =>
    execute_keeps_only_active_mode (Sample.codegen true)
      "http://localhost:4001/graphql" Sample.stale_world _ eq_refl
      sample_paths_distinct sample_execute_returns p) as H.
  split; [|split].
  - apply H; apply (bool_decide_unpack _); vm_compute; exact I.
  - intros X. apply H in X.
    + revert X. apply (bool_decide_unpack _). vm_compute. exact I.
    + apply (bool_decide_unpack _). vm_compute. exact I.
  - intros X. apply H in X.
    + revert X. apply (bool_decide_unpack _). vm_compute. exact I.
    + apply (bool_decide_unpack _). vm_compute. exact I.
Defined.

(** ** The client code and the size check *)

Lemma string_app_assoc (a b c : string) : (a +:+ b) +:+ c = a +:+ b +:+ c.
Proof.
  induction a as [|x a IH]; [reflexivity|].
  change (String x ((a +:+ b) +:+ c) = String x (a +:+ b +:+ c)).
  by rewrite IH.
Qed.

(** C10.  After an execution of [execute] that returns, with SDK
    generation enabled, the generated paths pairwise distinct and a
    token [t] configured, the client file of the active mode holds the
    client code; the token occurs in it verbatim between single quotes,
    and so does the resolved API URL, which is also what [execute]
    returns. *)
Theorem client_code_contains_token `{Ext : Externals}
    (this : Codegen) (url t : string) (w w' : World) :
  let cm := configManager w in
  noSDK this = false ->
  NoDup (generatedFiles cm) ->
  token (config cm) = Some t ->
  execute this w = Return url w' ->
  exists clientString,
    files w' !! clientFile cm = Some clientString
    /\ occurs_in ("token: '" +:+ t +:+ "'") clientString
    /\ occurs_in ("url: '" +:+ url +:+ "'") clientString
    /\ getApiURL cm (port this) = Ok url.
Proof.
  intros cm N D T E.
  apply execute_inv in E as [U E]. rewrite N in E.
  destruct E as (ts & js & _ & _ & ->). fold cm in U |- *.
  exists (clientCode url (Some t)). split; [|split; [|split; [|exact U]]].
  - rewrite files_performed.
    pose proof (sdk_script_leaves this cm url ts js (files w) D) as L.
    cbv zeta in L. destruct L as (_ & _ & _ & L).
    unfold clientFile. rewrite <- T.
    destruct (isUsingTs cm); tauto.
  - exists ("import { createClient } from " +:+ dq +:+ "tinacms/dist/client" +:+ dq
            +:+ ";" +:+ nl +:+ "import { queries } from " +:+ dq +:+ "./types"
            +:+ dq +:+ ";" +:+ nl
            +:+ "export const client = createClient({ url: '" +:+ url +:+ "', "),
           (", queries });" +:+ nl +:+ "export default client;" +:+ nl +:+ "  ").
    unfold clientCode, show. rewrite !string_app_assoc. reflexivity.
  - exists ("import { createClient } from " +:+ dq +:+ "tinacms/dist/client" +:+ dq
            +:+ ";" +:+ nl +:+ "import { queries } from " +:+ dq +:+ "./types"
            +:+ dq +:+ ";" +:+ nl
            +:+ "export const client = createClient({ "),
           (", token: '" +:+ t +:+ "', queries });" +:+ nl
            +:+ "export default client;" +:+ nl +:+ "  ").
    unfold clientCode, show. rewrite !string_app_assoc. reflexivity.
Qed.

Lemma client_code_contains_token_witness :
  exists clientString,
    files (world_of (execute (Sample.codegen true) Sample.stale_world))
      !! "tina/__generated__/client.ts" = Some clientString
    /\ occurs_in "token: 's3cr3t'" clientString
    /\ occurs_in "url: 'http://localhost:4001/graphql'" clientString.
Proof.
  destruct (client_code_contains_token (Sample.codegen true)
              "http://localhost:4001/graphql" "s3cr3t" Sample.stale_world _
              eq_refl sample_paths_distinct eq_refl sample_execute_returns)
    as (c & F & Tk & Ur & _).
  exists c. split; [exact F|]. split; [exact Tk|exact Ur].
Defined.

Lemma effects_of_no_print `{Ext : Externals} script disk :
  Forall (fun s => match s with Note e => ~ is_print e | _ => True end) script ->
  Forall (fun e => ~ is_print e) (effects_of script disk).
Proof.
  revert disk. induction script as [|s script IH]; intros disk H; simpl; [done|].
  apply Forall_cons in H as [Hs H]. apply Forall_app. split; [|by apply IH].
  destruct s as [p c|p c|p|e]; simpl.
  - repeat constructor. tauto.
  - repeat constructor. tauto.
  - unfold unlinked. destruct (disk !! p); repeat constructor. tauto.
  - by repeat constructor.
Qed.

(** C8.  In an execution of [execute] with SDK generation enabled in
    which the URL resolves and the type generator (and, in the runtime
    mode, the transpiler) succeeds: the size of the fragment document
    is read right after the document is written; the warning and the
    remediation snippet are printed then if the document has more than
    100 * 1024 bytes, and nothing is printed if it has not; nothing else
    is printed; [execute] returns the URL, and the fragment file holds
    the document as written. *)
Theorem fragment_size_advisory `{Ext : Externals}
    (this : Codegen) (url ts : string) (w : World) :
  let cm := configManager w in
  noSDK this = false ->
  NoDup (generatedFiles cm) ->
  getApiURL cm (port this) = Ok url ->
  generateTypes (schema this)
    (userQueriesAndFragmentsGlob cm) (generatedQueriesAndFragmentsGlob cm)
    url (sources w) (disk_for_types this cm (files w)) = Ok ts ->
  (isUsingTs cm = false -> exists js, transform (typesCode ts) = Ok js) ->
  exists w' rest,
    execute this w = Return url w'
    /\ files w' !! generatedFragmentsFilePath cm = Some (fragDoc this)
    /\ events w'
       = events w
         ++ [EOutputFile (generatedQueriesFilePath cm) (queryDoc this);
             EOutputFile (generatedFragmentsFilePath cm) (fragDoc this);
             EStat (generatedFragmentsFilePath cm)]
         ++ (if (100 * 1024 <? N.of_nat (String.length (fragDoc this)))%N
             then [EPrint ConsoleWarn fragmentSizeWarning;
                   EPrint ConsoleLog fragmentSizeSnippet]
             else [])
         ++ rest
    /\ Forall (fun e => ~ is_print e) rest.
Proof.
  intros cm N D U G T.
  assert (exists js, isUsingTs cm = false -> transform (typesCode ts) = Ok js)
    as [js T'].
  { destruct (isUsingTs cm); [by exists ""|]. destruct (T eq_refl) as [js ?]. eauto. }
  exists (performed (sdk_script this cm url ts js) w),
    (effects_of (late_script this cm url ts js) (disk_for_types this cm (files w))).
  split; [by apply execute_sdk_run|]. split; [|split].
  - rewrite files_performed.
    pose proof (sdk_script_leaves this cm url ts js (files w) D) as L.
    cbv zeta in L. tauto.
  - rewrite events_performed. f_equal. unfold sdk_script, early_script.
    rewrite !effects_of_app, effects_of_notes. simpl.
    rewrite apply_steps_notes. reflexivity.
  - apply effects_of_no_print. unfold late_script.
    destruct (isUsingTs cm); repeat constructor; simpl; tauto.
Qed.

Lemma length_document (n : nat) : String.length (Sample.document n) = n.
Proof. induction n as [|n IH]; simpl; [done|]. by rewrite IH. Qed.

Lemma fragment_size_advisory_witness :
  exists w' rest,
    execute Sample.big_codegen (Sample.world true true [])
    = Return "http://localhost:4001/graphql" w'
    /\ files w' !! "tina/__generated__/frags.gql"
       = Some (Sample.document (150 * 1024))
    /\ events w'
       = [EOutputFile "tina/__generated__/queries.gql" "query q { x }";
          EOutputFile "tina/__generated__/frags.gql" (Sample.document (150 * 1024));
          EStat "tina/__generated__/frags.gql";
          EPrint ConsoleWarn fragmentSizeWarning;
          EPrint ConsoleLog fragmentSizeSnippet] ++ rest
    /\ Forall (fun e => ~ is_print e) rest.
Proof.
  destruct (fragment_size_advisory Sample.big_codegen
              "http://localhost:4001/graphql"
              "export type Sdk = {} // type Query { x: Int } // query q { x }"
              (Sample.world true true []) eq_refl sample_paths_distinct
              eq_refl eq_refl
              ltac:(intros X; vm_compute in X; discriminate X))
    as (w' & rest & E & F & Ev & P).
  exists w', rest. split; [exact E|]. split; [exact F|]. split; [|exact P].
  rewrite Ev. change (fragDoc Sample.big_codegen) with (Sample.document (150 * 1024)).
  rewrite length_document.
  assert ((100 * 1024 <? N.of_nat (150 * 1024))%N = true) as ->
    by (apply N.ltb_lt; lia).
  reflexivity.
Defined.

(** ** Traces: the order of the steps and what a failure leaves *)

Section Traces.

Context `{Ext : Externals}.

Lemma steps_app d1 d2 : steps (d1 ++ d2) = steps d1 ++ steps d2.
Proof. apply omap_app. Qed.

Lemma no_raise_app d1 d2 : no_raise (d1 ++ d2) <-> no_raise d1 /\ no_raise d2.
Proof. unfold no_raise. rewrite forallb_app. apply andb_true_iff. Qed.

Lemma ascending_nil lo hi : ascending lo hi [].
Proof. split; constructor. Qed.

Lemma ascending_one lo hi k : lo <= k <= hi -> ascending lo hi [k].
Proof. intros ?. split; repeat constructor; lia. Qed.

Lemma ascending_app lo mid hi l1 l2 :
  lo <= mid <= hi ->
  ascending lo mid l1 -> ascending mid hi l2 -> ascending lo hi (l1 ++ l2).
Proof.
  intros ? [B1 S1] [B2 S2]. split.
  - apply Forall_app. split; (eapply Forall_impl; [eassumption|]); simpl; lia.
  - apply StronglySorted_app_2; [|done..].
    intros x1 x2 I1 I2.
    rewrite Forall_forall in B1, B2.
    specialize (B1 _ I1). specialize (B2 _ I2). simpl in *. lia.
Qed.

Lemma ascending_weaken lo hi lo' hi' l :
  lo' <= lo -> hi <= hi' -> ascending lo hi l -> ascending lo' hi' l.
Proof.
  intros ?? [B S]. split; [|done].
  eapply Forall_impl; [eassumption|]. simpl; lia.
Qed.

Lemma traced_ret {A} lo hi (a : A) : traced lo hi (ret a).
Proof.
  intros w. exists []. simpl. rewrite app_nil_r.
  split; [done|]. split; [apply ascending_nil|done].
Qed.

Lemma traced_bind {A B} lo mid hi (m : M A) (f : A -> M B) :
  lo <= mid <= hi ->
  traced lo mid m -> (forall a, traced mid hi (f a)) -> traced lo hi (m ≫= f).
Proof.
  intros ? Tm Tf w. rewrite bind_run.
  destruct (Tm w) as (d1 & E1 & A1 & Hd1).
  destruct (m w) as [a w1|e w1|c w1]; simpl in *.
  - destruct (Tf a w1) as (d2 & E2 & A2 & Hd2).
    exists (d1 ++ d2). rewrite E2, E1, app_assoc. split; [done|]. split.
    + rewrite steps_app. eauto using ascending_app.
    + destruct (f a w1); simpl in *.
      * by apply no_raise_app.
      * destruct Hd2 as (d' & e & post & -> & ? & ? & ?).
        exists (d1 ++ d'), e, post. rewrite app_assoc.
        split; [done|]. split; [by apply no_raise_app|done].
      * destruct Hd2 as (d' & e & post & -> & ? & ? & ?).
        exists (d1 ++ d'), e, post. rewrite app_assoc.
        split; [done|]. split; [by apply no_raise_app|done].
  - exists d1. split; [done|]. split; [|done].
    eapply ascending_weaken; [| |eassumption]; lia.
  - exists d1. split; [done|]. split; [|done].
    eapply ascending_weaken; [| |eassumption]; lia.
Qed.

(** A computation that only reads the world. *)
Lemma traced_read {A} lo hi (f : World -> A) :
  traced lo hi (fun w => Return (f w) w).
Proof.
  intros w. exists []. simpl. rewrite app_nil_r.
  split; [done|]. split; [apply ascending_nil|done].
Qed.

(** A computation that changes the world but not its trace. *)
Lemma traced_silent lo hi (f : World -> World) :
  (forall w, events (f w) = events w) ->
  traced lo hi (fun w => Return tt (f w)).
Proof.
  intros Ev w. exists []. simpl. rewrite Ev, app_nil_r.
  split; [done|]. split; [apply ascending_nil|done].
Qed.

Lemma traced_emit lo hi e :
  raises e = false ->
  match step_of e with Some k => lo <= k <= hi | None => True end ->
  traced lo hi (emit e).
Proof.
  intros R S w. exists [e]. split; [done|]. split.
  - unfold steps. simpl. destruct (step_of e); [by apply ascending_one|apply ascending_nil].
  - simpl. unfold no_raise. simpl. by rewrite R.
Qed.

Lemma traced_raise {A} lo hi e : traced lo hi (raise (A:=A) e).
Proof.
  intros w. exists [ERaise e]. split; [done|]. split; [apply ascending_nil|].
  simpl. by exists [], e, [].
Qed.

Lemma traced_throwing {A} lo hi (r : result A) : traced lo hi (throwing r).
Proof. destruct r; [apply traced_ret|apply traced_raise]. Qed.

Lemma traced_call {A} lo hi k c (r : result A) :
  step_of (ECall c) = Some k -> lo <= k <= hi -> traced lo hi (call c r).
Proof.
  intros S ?. unfold call. apply (traced_bind lo k hi); [lia| |].
  - apply traced_emit; [done|]. rewrite S. lia.
  - intros _. apply traced_throwing.
Qed.

Lemma traced_print lo hi ch text : traced lo hi (print ch text).
Proof. by apply traced_emit. Qed.

Lemma traced_outputFile lo hi path content :
  lo <= 4 <= hi -> traced lo hi (outputFile path content).
Proof.
  intros ? w. exists [EOutputFile path content]. split; [done|].
  split; [by apply ascending_one|done].
Qed.

Lemma traced_writeFileSync lo hi path content :
  lo <= 3 <= hi -> traced lo hi (writeFileSync path content).
Proof.
  intros ? w. exists [EWriteFileSync path content]. split; [done|].
  split; [by apply ascending_one|done].
Qed.

Lemma traced_unlinkIfExists lo hi path :
  lo <= 4 <= hi -> traced lo hi (unlinkIfExists path).
Proof.
  intros ? w. rewrite unlinkIfExists_run. exists (unlinked path (files w)).
  split; [simpl; by rewrite app_nil_r|]. unfold unlinked.
  destruct (files w !! path); split;
    first [by apply ascending_one | apply ascending_nil | done].
Qed.

Lemma traced_maybeWarnFragmentSize lo hi path :
  lo <= 4 <= hi -> traced lo hi (maybeWarnFragmentSize path).
Proof.
  intros ?. unfold maybeWarnFragmentSize. apply (traced_bind lo 4 hi); [lia| |].
  - intros w. unfold stat_size. destruct (files w !! path).
    + exists [EStat path]. split; [done|]. split; [apply ascending_one; lia|done].
    + apply traced_raise.
  - intros size. destruct (_ <? _)%N; [|apply traced_ret].
    apply (traced_bind 4 4 hi); [lia|apply traced_print|intros; apply traced_print].
Qed.

End Traces.

Ltac traced_step :=
  match goal with
  | |- traced _ _ (ret _) => apply traced_ret
  | |- traced _ _ this_configManager => apply traced_read
  | |- traced _ _ the_sources => apply traced_read
  | |- traced _ _ the_files => apply traced_read
  | |- traced _ _ (outputFile _ _) => apply traced_outputFile; lia
  | |- traced _ _ (writeFileSync _ _) => apply traced_writeFileSync; lia
  | |- traced _ _ (unlinkIfExists _) => apply traced_unlinkIfExists; lia
  | |- traced _ _ (maybeWarnFragmentSize _) => apply traced_maybeWarnFragmentSize; lia
  | |- traced _ _ (print _ _) => apply traced_print
  | |- traced _ _ (throwing _) => apply traced_throwing
  | |- traced _ _ (call _ _) => eapply traced_call; [reflexivity|lia]
  | |- traced _ _ (if ?b then _ else _) => destruct b
  | |- traced _ _ (let '(_, _) := ?x in _) => destruct x
  | |- traced ?lo ?hi (_ ≫= _) => apply (traced_bind lo lo hi); [lia| |intros ?]
  end.

Section CodegenTraces.
Context `{Ext : Externals}.

Lemma traced_execute this : traced 4 4 (execute this).
Proof.
  unfold execute, removeGeneratedFilesIfExists, genClient, genTypes, this_getApiURL.
  repeat traced_step.
Qed.

End CodegenTraces.


Section DevTraces.
Context `{Ext : Externals}.

Lemma traced_try_catch_final {A} lo hi (m : M A) (h : string -> M A) :
  traced lo hi m ->
  (forall e w, exists d,
      events (world_of (h e w)) = events w ++ d
      /\ no_raise d /\ steps d = []
      /\ match h e w with Return _ _ => False | _ => True end) ->
  traced lo hi (try_catch m h).
Proof.
  intros Tm Th w. unfold try_catch.
  destruct (Tm w) as (d1 & E1 & A1 & H1).
  destruct (m w) as [a w1|e w1|c w1]; simpl in *; [by exists d1..| |by exists d1].
  destruct (Th e w1) as (d2 & E2 & N2 & S2 & F2).
  exists (d1 ++ d2). rewrite E2, E1, app_assoc. split; [done|]. split.
  - by rewrite steps_app, S2, app_nil_r.
  - destruct H1 as (d' & e' & post & -> & ? & ? & ?).
    assert (exists d'0 e0 post0,
               (d' ++ ERaise e' :: post) ++ d2 = d'0 ++ ERaise e0 :: post0
               /\ no_raise d'0 /\ no_raise post0 /\ steps post0 = []) as X.
    { exists d', e', (post ++ d2). rewrite <- app_assoc. split; [done|].
      split; [done|]. split; [by apply no_raise_app|].
      rewrite steps_app. by rewrite S2, app_nil_r. }
    destruct (h e w1); [done|exact X..].
Qed.

(** What the [catch] block around [processConfig] does. *)
Lemma config_failure_run {A} (this : DevCommand.t) e (w : World) :
  (print LoggerError
     "Unable to start dev server, please fix your Tina config and try again" ;;
   print LoggerError e ;;
   (if DevCommand.verbose this then print ConsoleError e else ret tt) ;;
   process_exit (A:=A) 1) w
  = Exit 1
      (performed
         (map Note
            ([EPrint LoggerError
                "Unable to start dev server, please fix your Tina config and try again";
              EPrint LoggerError e]
             ++ (if DevCommand.verbose this then [EPrint ConsoleError e] else [])
             ++ [EExit 1])) w).
Proof.
  run_by print_run. run_by print_run. rewrite performed_app.
  destruct (DevCommand.verbose this).
  - run_by print_run. by rewrite process_exit_run, !performed_app.
  - rewrite bind_run, (ret_run tt). cbv beta iota.
    by rewrite process_exit_run, !performed_app.
Qed.

Lemma traced_watchQueries lo hi codegen :
  lo <= 5 <= hi -> traced lo hi (DevCommand.watchQueries codegen).
Proof.
  intros ?. unfold DevCommand.watchQueries.
  apply (traced_bind lo lo hi); [lia|apply traced_read|intros cm].
  apply (traced_bind lo 5 hi); [lia| |intros _].
  - eapply traced_call; [reflexivity|lia].
  - by apply (traced_silent _ _ (fun w => set_watchers (watchers w ++ [_]) w)).
Qed.

Lemma traced_setup this : traced 1 6 (DevCommand.setup this).
Proof.
  unfold DevCommand.setup.
  apply (traced_bind 1 1 6); [lia| |intros _].
  { apply traced_try_catch_final.
    - repeat traced_step.
      by apply (traced_silent _ _ (set_configManager _)).
    - intros e w. rewrite config_failure_run.
      eexists. split; [apply events_performed|].
      rewrite effects_of_notes. by destruct (DevCommand.verbose this). }
  apply (traced_bind 1 1 6); [lia|apply traced_read|intros cm].
  apply (traced_bind 1 1 6); [lia|apply traced_read|intros src].
  apply (traced_bind 1 2 6); [lia| |intros database].
  { eapply traced_call; [reflexivity|lia]. }
  apply (traced_bind 2 2 6); [lia| |intros [[[tinaSchema graphQLSchema] queryDoc] fragDoc]].
  { eapply traced_call; [reflexivity|lia]. }
  apply (traced_bind 2 3 6); [lia| |intros _].
  { destruct (negb _); [|apply traced_ret].
    apply (traced_bind 2 3 3); [lia| |intros ?]. { eapply traced_call; [reflexivity|lia]. }
    repeat traced_step. }
  apply (traced_bind 3 4 6); [lia| |intros schema].
  { eapply traced_call; [reflexivity|lia]. }
  apply (traced_bind 4 4 6); [lia|apply traced_execute|intros apiURL].
  apply (traced_bind 4 5 6); [lia| |intros _].
  { destruct (negb _); [apply traced_watchQueries; lia|apply traced_ret]. }
  apply (traced_bind 5 6 6); [lia| |intros _].
  { eapply traced_call; [reflexivity|lia]. }
  apply traced_ret.
Qed.

End DevTraces.

(** ** How [setup] runs *)

(** Case analysis on the result of the next call to a collaborator in a
    run that is known to return. *)
Ltac call_case H c a E :=
  match type of H with
  | context [call c ?r] =>
      destruct r as [a|?] eqn:E;
      [ try rewrite bind_run in H; rewrite (call_ok c _ _ eq_refl) in H
      | try rewrite bind_run in H; rewrite (call_err c _ _ eq_refl) in H;
        cbv beta iota in H; discriminate H ];
      cbv beta iota in H
  end.

Section SetupRuns.
Context `{Ext : Externals}.

Lemma writeFileSync_run path content (w : World) :
  writeFileSync path content w = Return tt (performed [Save path content] w).
Proof. reflexivity. Qed.

Lemma install_configManager_run cm (w : World) :
  DevCommand.install_configManager cm w = Return tt (set_configManager cm w).
Proof. reflexivity. Qed.

Lemma performed_set_configManager script cm (w : World) :
  performed script (set_configManager cm w) = set_configManager cm (performed script w).
Proof. reflexivity. Qed.

Lemma watchQueries_run codegen (w : World) :
  DevCommand.watchQueries codegen w
  = Return tt
      (set_watchers (watchers w ++ [QueryWatcher false codegen])
         (performed
            [Note (ECall (ChokidarWatch [userQueriesAndFragmentsGlob (configManager w)]))]
            w)).
Proof.
  unfold DevCommand.watchQueries. run_by this_configManager_run.
  by run_by (call_ok (ChokidarWatch [userQueriesAndFragmentsGlob (configManager w)])
               (Ok tt) tt eq_refl).
Qed.

(** The end of [setup], from the call of the code generator on. *)
Lemma setup_tail_run this codegen database tinaSchema graphQLSchema src url (wA wB : World) :
  execute codegen wA = Return url wB ->
  indexContent src database tinaSchema graphQLSchema = Ok tt ->
  (apiURL ← execute codegen;
   (if negb (DevCommand.noWatch this) then DevCommand.watchQueries codegen else ret tt) ;;
   call IndexContent (indexContent src database tinaSchema graphQLSchema) ;;
   ret (apiURL, database)) wA
  = Return (url, database) (after_codegen this codegen wB).
Proof.
  intros X I. run_by X. unfold after_codegen, watch_effects.
  destruct (DevCommand.noWatch this); simpl negb; cbv iota.
  - rewrite bind_run, (ret_run tt). cbv beta iota.
    run_by (call_ok IndexContent _ _ I). rewrite ret_run. do 2 f_equal.
    simpl. rewrite performed_nil, app_nil_r. by destruct wB.
  - run_by watchQueries_run. run_by (call_ok IndexContent _ _ I).
    by rewrite ret_run.
Qed.

Ltac run_in H lem := rewrite bind_run, lem in H; cbv beta iota in H.

Lemma setup_tail_inv this codegen database tinaSchema graphQLSchema src r
    (wA w' : World) :
  (apiURL ← execute codegen;
   (if negb (DevCommand.noWatch this) then DevCommand.watchQueries codegen else ret tt) ;;
   call IndexContent (indexContent src database tinaSchema graphQLSchema) ;;
   ret (apiURL, database)) wA
  = Return r w' ->
  exists url wB,
    execute codegen wA = Return url wB
    /\ indexContent src database tinaSchema graphQLSchema = Ok tt
    /\ r = (url, database)
    /\ w' = after_codegen this codegen wB.
Proof.
  intros H.
  destruct (execute codegen wA) as [url wB|e wB|c wB] eqn:X;
    [|by rewrite bind_run, X in H..].
  exists url, wB. split; [done|].
  assert (exists x, indexContent src database tinaSchema graphQLSchema = x)
    as [[[]|e] I] by eauto.
  - rewrite (setup_tail_run this codegen database tinaSchema graphQLSchema
               src url wA wB X I) in H.
    by inversion H.
  - exfalso. run_in H X.
    destruct (DevCommand.noWatch this); simpl negb in H; cbv iota in H.
    + rewrite bind_run, (ret_run tt) in H. cbv beta iota in H.
      by run_in H (call_err IndexContent _ _ I).
    + run_in H watchQueries_run. by run_in H (call_err IndexContent _ _ I).
Qed.

(** [setup] up to the call of the code generator, when nothing throws. *)
Lemma setup_head_run this cm database tinaSchema graphQLSchema queryDoc fragDoc
    schemaObject lookupObject graphqlSchemaObject schema (w : World) :
  processConfig (sources w) = Ok cm ->
  createAndInitializeDatabase (sources w) cm = Ok database ->
  buildSchema database (config cm) = Ok (tinaSchema, graphQLSchema, queryDoc, fragDoc) ->
  (isUsingLegacyFolder cm = false ->
   requireJSON (sources w) (generatedSchemaJSONPath cm) = Ok schemaObject
   /\ requireJSON (sources w) (generatedLookupJSONPath cm) = Ok lookupObject
   /\ requireJSON (sources w) (generatedGraphQLJSONPath cm) = Ok graphqlSchemaObject) ->
  getASTSchema database = Ok schema ->
  let codegen :=
    new_Codegen (Some (DevCommand.port this)) schema (DevCommand.noSDK this)
      queryDoc fragDoc in
  DevCommand.setup this w
  = (apiURL ← execute codegen;
     (if negb (DevCommand.noWatch this) then DevCommand.watchQueries codegen else ret tt) ;;
     call IndexContent (indexContent (sources w) database tinaSchema graphQLSchema) ;;
     ret (apiURL, database))
      (before_codegen cm schemaObject lookupObject graphqlSchemaObject w).
Proof.
  intros P C B R G codegen. unfold DevCommand.setup.
  rewrite bind_run. unfold try_catch at 1.
  run_by the_sources_run. run_by (call_ok ProcessConfig _ _ P).
  rewrite install_configManager_run. cbv beta iota.
  run_by this_configManager_run. run_by the_sources_run. simpl configManager. simpl sources.
  run_by (call_ok CreateAndInitializeDatabase _ _ C).
  run_by (call_ok BuildSchema _ _ B).
  rewrite !performed_set_configManager, !performed_app. simpl app.
  unfold before_codegen, setup_prelude, lock_script.
  destruct (isUsingLegacyFolder cm) eqn:L; simpl negb; cbv iota.
  - rewrite bind_run, (ret_run tt). cbv beta iota.
    run_by (call_ok GetASTSchema _ _ G).
    by rewrite !performed_set_configManager, !performed_app.
  - destruct (R eq_refl) as (R1 & R2 & R3).
    rewrite bind_run.
    run_by (call_ok (Require (generatedSchemaJSONPath cm)) _ _ R1).
    run_by (call_ok (Require (generatedLookupJSONPath cm)) _ _ R2).
    run_by (call_ok (Require (generatedGraphQLJSONPath cm)) _ _ R3).
    rewrite writeFileSync_run. cbv beta iota.
    run_by (call_ok GetASTSchema _ _ G).
    by rewrite !performed_set_configManager, !performed_app.
Qed.

(** A run of [setup] that returns. *)
Lemma setup_inv this r (w w' : World) :
  DevCommand.setup this w = Return r w' ->
  exists cm database tinaSchema graphQLSchema queryDoc fragDoc
         schemaObject lookupObject graphqlSchemaObject schema url wB,
    let codegen :=
      new_Codegen (Some (DevCommand.port this)) schema (DevCommand.noSDK this)
        queryDoc fragDoc in
    processConfig (sources w) = Ok cm
    /\ createAndInitializeDatabase (sources w) cm = Ok database
    /\ buildSchema database (config cm)
       = Ok (tinaSchema, graphQLSchema, queryDoc, fragDoc)
    /\ (isUsingLegacyFolder cm = false ->
        requireJSON (sources w) (generatedSchemaJSONPath cm) = Ok schemaObject
        /\ requireJSON (sources w) (generatedLookupJSONPath cm) = Ok lookupObject
        /\ requireJSON (sources w) (generatedGraphQLJSONPath cm)
           = Ok graphqlSchemaObject)
    /\ getASTSchema database = Ok schema
    /\ execute codegen
         (before_codegen cm schemaObject lookupObject graphqlSchemaObject w)
       = Return url wB
    /\ indexContent (sources w) database tinaSchema graphQLSchema = Ok tt
    /\ r = (url, database)
    /\ w' = after_codegen this codegen wB.
Proof.
  intros H. unfold DevCommand.setup in H.
  rewrite bind_run in H. unfold try_catch at 1 in H.
  run_in H the_sources_run.
  destruct (processConfig (sources w)) as [cm|e] eqn:P.
  2:{ rewrite bind_run, (call_err ProcessConfig _ _ eq_refl) in H.
      cbv beta iota in H. by rewrite config_failure_run in H. }
  run_in H (call_ok ProcessConfig _ _ (eq_refl (Ok cm))).
  rewrite install_configManager_run in H. cbv beta iota in H.
  run_in H this_configManager_run. run_in H the_sources_run.
  simpl configManager in H. simpl sources in H.
  call_case H CreateAndInitializeDatabase database C.
  call_case H BuildSchema built B.
  destruct built as [[[tinaSchema graphQLSchema] queryDoc] fragDoc].
  rewrite !performed_set_configManager, !performed_app in H. simpl app in H.
  rewrite bind_run in H.
  destruct (isUsingLegacyFolder cm) eqn:L;
    [change (negb true) with false in H|change (negb false) with true in H];
    cbv iota in H.
  - rewrite (ret_run tt) in H. cbv beta iota in H.
    call_case H GetASTSchema sch G.
    rewrite !performed_set_configManager, !performed_app in H. simpl app in H.
    exists cm, database, tinaSchema, graphQLSchema, queryDoc, fragDoc, "", "", "", sch.
    apply setup_tail_inv in H as (url & wB & X & I & -> & ->).
    exists url, wB. cbv zeta.
    unfold before_codegen, setup_prelude, lock_script. rewrite L. simpl app.
    repeat split; try done.
  - rewrite bind_run in H.
    call_case H (Require (generatedSchemaJSONPath cm)) schemaObject R1.
    call_case H (Require (generatedLookupJSONPath cm)) lookupObject R2.
    call_case H (Require (generatedGraphQLJSONPath cm)) graphqlSchemaObject R3.
    rewrite writeFileSync_run in H. cbv beta iota in H.
    call_case H GetASTSchema sch G.
    rewrite !performed_set_configManager, !performed_app in H. simpl app in H.
    exists cm, database, tinaSchema, graphQLSchema, queryDoc, fragDoc,
      schemaObject, lookupObject, graphqlSchemaObject, sch.
    apply setup_tail_inv in H as (url & wB & X & I & -> & ->).
    exists url, wB. cbv zeta.
    unfold before_codegen, setup_prelude, lock_script. rewrite L. simpl app.
    repeat split; try done.
Qed.

End SetupRuns.

(** ** The order of a full reconcile *)

Lemma added_app `{Ext : Externals} {A} (w : World) (o : outcome A) d :
  events (world_of o) = events w ++ d -> added w o = d.
Proof. intros E. unfold added. rewrite E. apply drop_app_length. Qed.

Lemma no_raise_without `{Ext : Externals} pre e post :
  ~ no_raise (pre ++ ERaise e :: post).
Proof.
  unfold no_raise. rewrite forallb_app. simpl. rewrite andb_false_r. done.
Qed.

(** A trace with one raise splits around it in one way. *)
Lemma raise_split_unique `{Ext : Externals} d1 e1 post1 d2 e2 post2 :
  d1 ++ ERaise e1 :: post1 = d2 ++ ERaise e2 :: post2 ->
  no_raise d1 -> no_raise post1 -> post1 = post2.
Proof.
  revert d2. induction d1 as [|x d1 IH]; intros [|y d2] E N1 N2; simpl in *.
  - by inversion E.
  - inversion E; subst. exfalso. by apply (no_raise_without d2 e2 post2).
  - inversion E; subst. done.
  - inversion E; subst. apply (IH d2); [done| |done].
    unfold no_raise in *. simpl in N1. by apply andb_true_iff in N1 as [_ ?].
Qed.

(** C4 (amended).  In every run of the full reconcile [setup] the steps
    occur in the order: load and validate the configuration (1), build
    the schema (2), persist the lock file unless the legacy layout is
    used (3), run the code generator and write the generated artifacts
    (4), register the query watcher unless watching is off (5), rebuild
    the full content index (6).  [steps] numbers the effects of a trace
    as [step_of] says, and the numbers of every run are in ascending
    order.  Once an exception is raised the run does not return and no
    effect of any step follows.  In a run that returns, the trace is the
    prelude, then exactly the effects of [codegen.execute()], then the
    watcher registration, then the full index: the code generator
    completes before the full index starts. *)
Theorem reconcile_order `{Ext : Externals} (this : DevCommand.t) (w : World) :
  let o := DevCommand.setup this w in
  let d := added w o in
  StronglySorted le (steps d)
  /\ (forall pre e post,
        d = pre ++ ERaise e :: post ->
        (forall r w', o <> Return r w') /\ steps post = [])
  /\ (forall r w',
        o = Return r w' ->
        exists cm schemaObject lookupObject graphqlSchemaObject
               schema queryDoc fragDoc url wB,
          let codegen :=
            new_Codegen (Some (DevCommand.port this)) schema
              (DevCommand.noSDK this) queryDoc fragDoc in
          let wA :=
            before_codegen cm schemaObject lookupObject graphqlSchemaObject w in
          processConfig (sources w) = Ok cm
          /\ execute codegen wA = Return url wB
          /\ d = effects_of
                   (setup_prelude cm schemaObject lookupObject graphqlSchemaObject)
                   (files w)
                 ++ added wA (Return url wB)
                 ++ watch_effects this cm
                 ++ [ECall IndexContent]).
Proof.
  intros o d.
  destruct (traced_setup this w) as (d0 & E & [_ Sorted] & Halts).
  assert (d = d0) as -> by (by apply added_app).
  split; [done|]. split.
  - intros pre e post ->. subst o.
    destruct (DevCommand.setup this w) as [r w'|e' w'|c w']; simpl in Halts.
    + exfalso. by apply (no_raise_without pre e post).
    + destruct Halts as (d' & e0 & post0 & Eq & N1 & N2 & S).
      split; [done|]. symmetry in Eq.
      by rewrite <- (raise_split_unique _ _ _ _ _ _ Eq N1 N2).
    + destruct Halts as (d' & e0 & post0 & Eq & N1 & N2 & S).
      split; [done|]. symmetry in Eq.
      by rewrite <- (raise_split_unique _ _ _ _ _ _ Eq N1 N2).
  - intros r w' R. subst o. rewrite R in E. simpl in E.
    apply setup_inv in R
      as (cm & db & tsch & gsch & qd & fd & so & lo & go & sch & url & wB & R).
    cbv zeta in R. destruct R as (P & _ & _ & _ & _ & X & _ & _ & ->).
    exists cm, so, lo, go, sch, qd, fd, url, wB. cbv zeta.
    split; [exact P|]. split; [exact X|].
    apply (app_inv_head (events w)). rewrite <- E.
    pose proof X as X'. apply execute_inv in X' as [_ X'].
    assert (exists script,
               wB = performed script (before_codegen cm so lo go w)) as [script ->].
    { destruct (noSDK _); [by eexists|]. destruct X' as (? & ? & _ & _ & ?). by eexists. }
    rewrite (added_app _ _ (effects_of script (files (before_codegen cm so lo go w))))
      by done.
    unfold after_codegen, watch_effects.
    rewrite !events_performed. simpl.
    rewrite effects_of_notes, <- !app_assoc.
    reflexivity.
Qed.

Lemma reconcile_order_witness :
  StronglySorted le
    (steps (added (Sample.world true true [])
              (DevCommand.setup Sample.command (Sample.world true true [])))).
Proof.
  exact (proj1 (reconcile_order Sample.command (Sample.world true true []))).
Defined.

(** C4, as stated: in the sample session the full index comes last,
    after every effect of the code generator. *)
Lemma index_before_codegen_fails :
  ~ index_before_codegen
      (added (Sample.world true true [])
         (DevCommand.setup Sample.command (Sample.world true true []))).
Proof.
  intros H.
  specialize (H 17 8
                (EOutputFile "tina/__generated__/queries.gql" "query q { x }")).
  assert (17 < 8) as F; [|lia].
  apply H; vm_compute; reflexivity.
Qed.

Section Idempotence.
Context `{Ext : Externals}.

Lemma touched_no_puts path acc script :
  Forall (fun s => match s with
                   | Put p _ | Save p _ | Del p => p <> path
                   | Note _ => True
                   end) script ->
  foldl (touch path) acc script = acc.
Proof.
  revert acc. induction script as [|s script IH]; intros acc F; [done|].
  apply Forall_cons in F as [Fs F]. simpl. rewrite IH by done.
  destruct s; simpl; try done; by rewrite decide_False.
Qed.

Lemma late_script_touches this cm url ts js path :
  path ∉ lateFiles cm ->
  forall acc, foldl (touch path) acc (late_script this cm url ts js) = acc.
Proof.
  intros N acc. apply touched_no_puts. unfold lateFiles in N.
  rewrite !not_elem_of_cons in N. unfold late_script.
  destruct (isUsingTs cm); repeat constructor; simpl;
    try (intros E; repeat destruct N as [? N]; congruence).
Qed.

Lemma foldl_touch_acc path acc script :
  foldl (touch path) acc script
  = match touched script path with Some r => Some r | None => acc end.
Proof.
  induction script as [|s script IH] using rev_ind; [done|].
  rewrite touched_app, foldl_app. simpl. rewrite IH.
  destruct s; simpl; try case_decide; done.
Qed.

Lemma touched_sdk_script this cm url ts js prelude path :
  path ∉ lateFiles cm ->
  touched (prelude ++ sdk_script this cm url ts js) path
  = touched (prelude ++ [Put (generatedQueriesFilePath cm) (queryDoc this);
                         Put (generatedFragmentsFilePath cm) (fragDoc this)]) path.
Proof.
  intros N. unfold sdk_script, early_script.
  rewrite !touched_app, !foldl_app, foldl_touch_notes.
  by rewrite late_script_touches.
Qed.

(** The disk the type generator reads in the second of two runs agrees
    with the one it read in the first, except at files written later. *)
Lemma disk_for_types_again this cm url ts js prelude disk path :
  path ∉ lateFiles cm ->
  disk_for_types this cm
    (apply_steps prelude (apply_steps (prelude ++ sdk_script this cm url ts js) disk))
  !! path
  = disk_for_types this cm (apply_steps prelude disk) !! path.
Proof.
  intros N.
  change (disk_for_types this cm ?d)
    with (apply_steps [Put (generatedQueriesFilePath cm) (queryDoc this);
                       Put (generatedFragmentsFilePath cm) (fragDoc this)] d).
  rewrite <- !apply_steps_app, !lookup_apply_steps.
  rewrite (touched_app (prelude ++ sdk_script _ _ _ _ _)), foldl_touch_acc.
  rewrite touched_sdk_script by done.
  by destruct (touched (prelude ++ _) path).
Qed.

End Idempotence.

Lemma files_before_codegen `{Ext : Externals} cm so lo go (w : World) :
  files (before_codegen cm so lo go w)
  = apply_steps (setup_prelude cm so lo go) (files w).
Proof. reflexivity. Qed.

Lemma files_after_codegen `{Ext : Externals} this codegen (w : World) :
  files (after_codegen this codegen w) = files w.
Proof.
  unfold after_codegen. rewrite files_performed. simpl.
  apply apply_steps_notes.
Qed.

(** C7.  When a full reconcile returned, running it again on the world
    it left, with the sources unchanged, returns the same result and
    leaves every file byte-identical, provided the type generator does
    not read the files that [execute] writes or deletes after calling
    it (the schema document and the client and type files). *)
Theorem setup_twice_same_files `{Ext : Externals}
    (this : DevCommand.t) (r : string * Database) (w w1 : World) :
  DevCommand.setup this w = Return r w1 ->
  types_ignore_late_files (configManager w1) ->
  exists w2, DevCommand.setup this w1 = Return r w2 /\ files w2 = files w1.
Proof.
  intros H Frame.
  apply setup_inv in H
    as (cm & db & tsch & gsch & qd & fd & so & lo & go & sch & url & wB & R).
  cbv zeta in R. destruct R as (P & C & B & Rq & G & X & I & -> & ->).
  set (codegen := new_Codegen (Some (DevCommand.port this)) sch
                    (DevCommand.noSDK this) qd fd) in *.
  set (prelude := setup_prelude cm so lo go).
  pose proof X as X'. apply execute_inv in X' as [U X'].
  change (configManager (before_codegen cm so lo go w)) with cm in U, X'.
  assert (exists script,
             wB = performed script (before_codegen cm so lo go w)
             /\ execute codegen
                  (before_codegen cm so lo go
                     (after_codegen this codegen
                        (performed script (before_codegen cm so lo go w))))
                = Return url
                    (performed script
                       (before_codegen cm so lo go
                          (after_codegen this codegen
                             (performed script (before_codegen cm so lo go w))))))
    as (script & -> & X2).
  { destruct (noSDK codegen) eqn:N.
    - exists (noSDK_script cm). split; [done|].
      by apply execute_noSDK_run.
    - destruct X' as (ts & js & GT & T & ->).
      exists (sdk_script codegen cm url ts js). split; [done|].
      apply execute_sdk_run; [done|done| |done].
      rewrite <- GT. apply Frame. intros p Np.
      rewrite !files_before_codegen, files_after_codegen, files_performed.
      rewrite files_before_codegen.
      rewrite <- (apply_steps_app prelude (sdk_script _ _ _ _ _)).
      by apply disk_for_types_again. }
  set (w1 := after_codegen this codegen
               (performed script (before_codegen cm so lo go w))) in *.
  eexists. split.
  - rewrite (setup_head_run this cm db tsch gsch qd fd so lo go sch w1 P C B Rq G).
    apply (setup_tail_run this codegen db tsch gsch (sources w1) url _ _ X2 I).
  - subst w1.
    rewrite !files_after_codegen, !files_performed, !files_before_codegen.
    rewrite files_after_codegen, files_performed, files_before_codegen.
    rewrite <- !(apply_steps_app (setup_prelude cm so lo go) script).
    apply apply_steps_twice.
Qed.

Lemma setup_twice_same_files_witness :
  exists w2,
    DevCommand.setup Sample.command
      (world_of (DevCommand.setup Sample.command (Sample.world true true [])))
    = Return ("http://localhost:4001/graphql", Sample.the_database) w2
    /\ files w2
       = files (world_of (DevCommand.setup Sample.command (Sample.world true true []))).
Proof.
  apply (setup_twice_same_files Sample.command _ (Sample.world true true [])).
  - vm_compute. reflexivity.
  - intros s g1 g2 url src disk disk' Same. simpl.
    rewrite (Same "tina/__generated__/queries.gql"); [reflexivity|].
    apply (bool_decide_unpack _). vm_compute. exact I.
Defined.

(** ** Watch routing *)

Section Routing.
Context `{Ext : Externals}.

Lemma added_nothing {A} (a : A) (w : World) : added w (Return a w) = [].
Proof. unfold added. simpl. by rewrite drop_all. Qed.

Lemma quiet_steps d : ascending 4 4 (steps d) -> quiet d.
Proof.
  intros [B _]. unfold quiet. induction d as [|e d IH]; [done|].
  unfold steps in B. simpl in B |- *.
  destruct (step_of e) as [k|] eqn:S; simpl in B.
  - apply Forall_cons in B as [Bk B]. rewrite IH by done.
    destruct e as [| | | | |[]| |]; simpl in *; try done;
      inversion S; subst; lia.
  - rewrite IH by done.
    destruct e as [| | | | |[]| |]; simpl in *; try done.
Qed.

Lemma has_marker_false path :
  has_marker path = false ->
  includes path "__generated__" = false
  /\ includes path "@tinacms/app" = false
  /\ includes path "tinacms/dist" = false.
Proof.
  unfold has_marker. simpl. rewrite orb_false_r.
  intros H. apply orb_false_iff in H as [? H]. by apply orb_false_iff in H as [? ?].
Qed.

Lemma marked_change_ignored this path (w : World) :
  has_marker path = true ->
  DevCommand.serverWatcher_onChange this path w = Return tt w.
Proof.
  unfold has_marker, DevCommand.serverWatcher_onChange. simpl.
  destruct (includes path "__generated__"); [done|].
  destruct (includes path "@tinacms/app"); [done|].
  destruct (includes path "tinacms/dist"); done.
Qed.

Lemma traced_queryListener cg ready ev :
  traced 4 4 (DevCommand.queryListener (execute cg) ready ev).
Proof.
  destruct ev; simpl; [apply traced_ret|..];
    (apply (traced_bind 4 4 4); [lia|apply traced_execute|intros; apply traced_ret]).
Qed.

(** What the content listeners do with a change and with a removal,
    ready or not, and with an addition once ready. *)
Lemma content_events_reach_indexer i ready database file (w : World) :
  watchers w !! i = Some (ContentWatcher ready database) ->
  let p := printContentRelativePath (configManager w) file in
  added w (DevCommand.chokidar_emit i (DevCommand.Change file) w)
  = [ECall (IndexContentByPaths [p])]
  /\ added w (DevCommand.chokidar_emit i (DevCommand.Unlink file) w)
     = [ECall (DeleteContentByPaths [p])]
  /\ (ready = true ->
      added w (DevCommand.chokidar_emit i (DevCommand.Add file) w)
      = [ECall (IndexContentByPaths [p])]).
Proof.
  intros W p. unfold DevCommand.chokidar_emit. rewrite W.
  split; [|split; [|intros ->]]; simpl;
    apply added_app; reflexivity.
Qed.

End Routing.

(** C1 (amended).  For every event whose path contains a
    generated-output marker, delivered to the config-files scope
    ([server.watcher]) or to a query-files watcher, whatever its
    readiness, no content indexer call is made and no reconcile is
    started.  (The content-files listeners do not look at markers.) *)
Theorem marker_events_quiet_outside_content_scope `{Ext : Externals}
    (this : DevCommand.t) (tgt : Target) (ev : DevCommand.WatchEvent)
    (path : string) (w : World) :
  file_of ev = Some path ->
  has_marker path = true ->
  scope_of tgt w <> Some ContentFiles ->
  quiet (added w (deliver this tgt ev w)).
Proof.
  intros F Mk Sc. destruct tgt as [i|]; simpl in *.
  - unfold DevCommand.chokidar_emit.
    destruct (watchers w !! i) as [[ready db|ready cg]|]; [done| |by rewrite added_nothing].
    assert (traced 4 4
              (r ← DevCommand.queryListener (execute cg) ready ev;
               DevCommand.set_watcher i (QueryWatcher r cg))) as T.
    { apply (traced_bind 4 4 4); [lia|apply traced_queryListener|intros r].
      by apply (traced_silent _ _ (fun w => set_watchers (<[i:=_]> (watchers w)) w)). }
    destruct (T w) as (d & E & As & _).
    rewrite (added_app _ _ _ E). by apply quiet_steps.
  - destruct ev as [|f|f|f]; simpl in *; try by rewrite added_nothing.
    inversion F; subst. rewrite marked_change_ignored by done.
    by rewrite added_nothing.
Qed.

Lemma marker_events_quiet_outside_content_scope_witness :
  quiet (added (Sample.world true true [])
           (deliver Sample.command Server
              (DevCommand.Change "tina/__generated__/client.ts")
              (Sample.world true true []))).
Proof.
  apply (marker_events_quiet_outside_content_scope Sample.command Server
           (DevCommand.Change "tina/__generated__/client.ts")
           "tina/__generated__/client.ts" (Sample.world true true [])).
  - reflexivity.
  - vm_compute. reflexivity.
  - simpl. discriminate.
Defined.

(** C1 as stated fails: a change under a path with a marker, delivered
    to the content watcher, is handed to the content indexer. *)
Lemma marker_suppression_fails_in_content_scope :
  has_marker "/site/content/posts/__generated__/a.md" = true
  /\ added (Sample.content_world true)
       (deliver Sample.command (Chokidar 0)
          (DevCommand.Change "/site/content/posts/__generated__/a.md")
          (Sample.content_world true))
     = [ECall (IndexContentByPaths ["/site/content/posts/__generated__/a.md"])]
  /\ ~ quiet
       (added (Sample.content_world true)
          (deliver Sample.command (Chokidar 0)
             (DevCommand.Change "/site/content/posts/__generated__/a.md")
             (Sample.content_world true))).
Proof.
  split; [vm_compute; reflexivity|]. split; [vm_compute; reflexivity|].
  vm_compute. discriminate.
Qed.

(** C2 (amended).  An add event delivered to a content-files watcher
    before its ready signal is dropped: the listener returns and the
    world, its trace included, is unchanged, so there is no content
    indexer call and no code generation.  A change and a removal
    delivered before the ready signal are handed to the content
    indexer. *)
Theorem content_add_before_ready_dropped `{Ext : Externals}
    (i : nat) (file : string) (database : Database) (w : World) :
  watchers w !! i = Some (ContentWatcher false database) ->
  let p := printContentRelativePath (configManager w) file in
  DevCommand.chokidar_emit i (DevCommand.Add file) w = Return tt w
  /\ added w (DevCommand.chokidar_emit i (DevCommand.Change file) w)
     = [ECall (IndexContentByPaths [p])]
  /\ added w (DevCommand.chokidar_emit i (DevCommand.Unlink file) w)
     = [ECall (DeleteContentByPaths [p])].
Proof.
  intros W p. split.
  - unfold DevCommand.chokidar_emit. rewrite W. simpl.
    rewrite bind_run, ret_run. cbv beta iota. unfold DevCommand.set_watcher.
    rewrite list_insert_id by done. by destruct w.
  - destruct (content_events_reach_indexer i false database file w W)
      as (C & U & _).
    by split.
Qed.

Lemma content_add_before_ready_dropped_witness :
  DevCommand.chokidar_emit 0 (DevCommand.Add "/site/content/posts/a.md")
    (Sample.content_world false)
  = Return tt (Sample.content_world false).
Proof.
  apply (content_add_before_ready_dropped 0 "/site/content/posts/a.md"
           Sample.the_database
           (Sample.content_world false)).
  reflexivity.
Defined.

(** C2 as stated fails: a change delivered to the content watcher
    before its ready signal is handed to the content indexer. *)
Lemma backfill_suppression_fails_for_change :
  ready_of (Chokidar 0) (Sample.content_world false) = Some false
  /\ added (Sample.content_world false)
       (DevCommand.chokidar_emit 0 (DevCommand.Change "/site/content/posts/a.md")
          (Sample.content_world false))
     = [ECall (IndexContentByPaths ["/site/content/posts/a.md"])].
Proof. split; vm_compute; reflexivity. Qed.

(** ** A change of the configuration after startup *)

Section Exits.
Context `{Ext : Externals}.

Lemma never_exits_bind {A B} (m : M A) (f : A -> M B) :
  never_exits m -> (forall a, never_exits (f a)) -> never_exits (m ≫= f).
Proof.
  intros Hm Hf w c w'. rewrite bind_run.
  destruct (m w) as [a w1|e w1|c1 w1] eqn:E; [apply Hf|done|].
  by destruct (Hm w c1 w1).
Qed.

Lemma never_exits_throwing {A} (r : result A) : never_exits (throwing r).
Proof. by destruct r. Qed.

Lemma never_exits_call {A} c (r : result A) : never_exits (call c r).
Proof.
  apply never_exits_bind; [done|]. intros _. apply never_exits_throwing.
Qed.

Lemma never_exits_unlinkIfExists path : never_exits (unlinkIfExists path).
Proof. intros w c w'. by rewrite unlinkIfExists_run. Qed.

Lemma never_exits_maybeWarnFragmentSize path :
  never_exits (maybeWarnFragmentSize path).
Proof.
  apply never_exits_bind.
  - intros w c w'. unfold stat_size. by destruct (files w !! path).
  - intros size. destruct (_ <? _)%N; [|done].
    apply never_exits_bind; done.
Qed.

End Exits.

Ltac never_exits_step :=
  match goal with
  | |- never_exits (_ ≫= _) => apply never_exits_bind; [|intros ?]
  | |- never_exits (call _ _) => apply never_exits_call
  | |- never_exits (throwing _) => apply never_exits_throwing
  | |- never_exits (unlinkIfExists _) => apply never_exits_unlinkIfExists
  | |- never_exits (maybeWarnFragmentSize _) => apply never_exits_maybeWarnFragmentSize
  | |- never_exits (if ?b then _ else _) => destruct b
  | |- never_exits (let '(_, _) := ?x in _) => destruct x
  | |- never_exits _ => done
  end.

Section ConfigChange.
Context `{Ext : Externals}.

Lemma never_exits_execute this : never_exits (execute this).
Proof.
  unfold execute, removeGeneratedFilesIfExists, genClient, genTypes, this_getApiURL.
  repeat never_exits_step.
Qed.

(** With a valid configuration, [setup] returns or throws. *)
Lemma setup_valid_config_never_exits this cm (w : World) :
  processConfig (sources w) = Ok cm ->
  forall c w', DevCommand.setup this w <> Exit c w'.
Proof.
  intros P. unfold DevCommand.setup.
  rewrite bind_run. unfold try_catch at 1.
  run_by the_sources_run. run_by (call_ok ProcessConfig _ _ P).
  rewrite install_configManager_run. cbv beta iota.
  intros c w'.
  match goal with
  | |- ?rest ?w0 <> _ => enough (never_exits rest) as H by apply H
  end.
  repeat first [ never_exits_step | apply never_exits_execute
               | progress unfold DevCommand.watchQueries ].
Qed.

(** A change outside the generated output with an invalid configuration
    ends the process with code 1. *)
Lemma config_change_invalid_config this path e (w : World) :
  has_marker path = false ->
  processConfig (sources w) = Err e ->
  DevCommand.serverWatcher_onChange this path w
  = Exit 1
      (performed
         (map Note
            ([ECall ProcessConfig; ERaise e;
              EPrint LoggerError
                "Unable to start dev server, please fix your Tina config and try again";
              EPrint LoggerError e]
             ++ (if DevCommand.verbose this then [EPrint ConsoleError e] else [])
             ++ [EExit 1])) w).
Proof.
  intros Mk P. apply has_marker_false in Mk as (M1 & M2 & M3).
  unfold DevCommand.serverWatcher_onChange. rewrite M1, M2, M3.
  unfold try_catch at 1. rewrite bind_run.
  unfold DevCommand.setup. rewrite bind_run. unfold try_catch at 1.
  run_by the_sources_run. rewrite bind_run, (call_err ProcessConfig _ _ P).
  cbv beta iota. rewrite config_failure_run, performed_app. reflexivity.
Qed.

(** With a valid configuration, whatever is thrown later in [setup] is
    logged and the listener returns. *)
Lemma config_change_valid_config_returns this path cm (w : World) :
  processConfig (sources w) = Ok cm ->
  exists w', DevCommand.serverWatcher_onChange this path w = Return tt w'.
Proof.
  intros P. unfold DevCommand.serverWatcher_onChange.
  destruct (includes path "__generated__"); [by eexists|].
  destruct (includes path "@tinacms/app"); [by eexists|].
  destruct (includes path "tinacms/dist"); [by eexists|].
  unfold try_catch. rewrite bind_run.
  pose proof (setup_valid_config_never_exits this cm w P) as N.
  destruct (DevCommand.setup this w) as [r w1|e w1|c w1].
  - by eexists.
  - by eexists.
  - by destruct (N c w1).
Qed.

End ConfigChange.

(** C3.  The code at the failing input: after startup, a change of the
    configuration file that makes the configuration invalid ends the
    process with code 1 instead of being logged and swallowed. *)
Lemma config_change_with_invalid_config_exits :
  exists w',
    DevCommand.serverWatcher_onChange Sample.command "tina/config.ts"
      (Sample.world false true [])
    = Exit 1 w'
    /\ events w'
       = [ECall ProcessConfig;
          ERaise "Invalid config: collection name is required";
          EPrint LoggerError
            "Unable to start dev server, please fix your Tina config and try again";
          EPrint LoggerError "Invalid config: collection name is required";
          EExit 1].
Proof.
  exists (world_of (DevCommand.serverWatcher_onChange Sample.command "tina/config.ts"
                      (Sample.world false true []))).
  split; vm_compute; reflexivity.
Qed.

(** * Further properties of the code *)

(** ** API URL resolution: precedence and form *)

Lemma truthy_Some (s : string) : s <> "" -> truthy (Some s) = true.
Proof.
  intros N. unfold truthy. destruct (String.eqb_spec s ""); [done|reflexivity].
Qed.



(** X2.  Without override and without port ([undefined], [0] or [NaN]), and
    with the three credentials, the URL is that of the branch of the
    project on the content API: on the host the [tinaioConfig] names, or
    on [content.tinajs.io]. *)
Theorem getApiURL_cloud_url (cm : ConfigManager) (port : option number)
    (b c t : string) :
  truthy (contentApiUrlOverride (config cm)) = false ->
  truthy_number port = false ->
  branch (config cm) = Some b -> clientId (config cm) = Some c ->
  token (config cm) = Some t ->
  b <> "" -> c <> "" -> t <> "" ->
  getApiURL cm port
  = Ok (or_else (tinaioConfig (config cm) ≫= tinaio_contentApiUrlOverride)
          "https://content.tinajs.io"
        +:+ "/" +:+ getTinaGraphQLVersion cm
        +:+ "/content/" +:+ c +:+ "/github/" +:+ b).
Proof.
  intros O P B C T Nb Nc Nt. unfold getApiURL.
  rewrite O, P, B, C, T, !truthy_Some by done. reflexivity.
Qed.

Lemma getApiURL_cloud_url_witness :
  getApiURL (Sample.manager Sample.full_config true) (Some NaN)
  = Ok "https://content.tinajs.io/1.4/content/abc/github/main".
Proof.
  apply (getApiURL_cloud_url (Sample.manager Sample.full_config true) (Some NaN)
           "main" "abc" "s3cr3t"); first [reflexivity | discriminate].
Defined.

(** ** What [execute] does to the disk, on every path *)

Section ScriptPaths.
Context `{Ext : Externals}.

Lemma paths_of_app s1 s2 : paths_of (s1 ++ s2) = paths_of s1 ++ paths_of s2.
Proof. apply omap_app. Qed.

Lemma paths_of_notes d : paths_of (map Note d) = [].
Proof. induction d as [|e d IH]; [done|exact IH]. Qed.

(** A script leaves the files it does not name as they were. *)
Lemma lookup_apply_steps_other script disk p :
  p ∉ paths_of script -> apply_steps script disk !! p = disk !! p.
Proof.
  intros N. rewrite lookup_apply_steps.
  enough (touched script p = None) as -> by done.
  apply touched_no_puts.
  induction script as [|s script IH]; [done|].
  destruct s as [q c|q c|q|e]; simpl in N;
    try (apply not_elem_of_cons in N as [? N]);
    constructor; auto.
Qed.

Lemma configManager_performed script (w : World) :
  configManager (performed script w) = configManager w.
Proof. reflexivity. Qed.

Lemma watchers_performed script (w : World) :
  watchers (performed script w) = watchers w.
Proof. reflexivity. Qed.

Lemma sources_performed script (w : World) :
  sources (performed script w) = sources w.
Proof. reflexivity. Qed.

End ScriptPaths.

(** The paths of a script are all among the generated files. *)
Ltac generated_paths :=
  unfold paths_of, generatedFiles, sdkFiles; simpl;
  repeat constructor; rewrite !elem_of_cons; tauto.

Section ExecuteWorld.
Context `{Ext : Externals}.

(** However [execute] ends, what it did is a script over the eight
    generated files. *)
Lemma execute_world this (w : World) :
  exists script,
    world_of (execute this w) = performed script w
    /\ Forall (fun p => p ∈ generatedFiles (configManager w)) (paths_of script).
Proof.
  set (cm := configManager w).
  destruct (getApiURL cm (port this)) as [url|e] eqn:U.
  2:{ exists [Note (ERaise e)]. rewrite (execute_apiURL_fail _ _ _ U).
      split; [done|constructor]. }
  destruct (noSDK this) eqn:N.
  { exists (noSDK_script cm). rewrite (execute_noSDK_run _ _ _ N U).
    split; [done|]. unfold noSDK_script. generated_paths. }
  assert (Forall (fun p => p ∈ generatedFiles cm) (paths_of (early_script this cm)))
    as Early.
  { unfold early_script. rewrite paths_of_app, paths_of_notes. generated_paths. }
  destruct (generateTypes (schema this)
              (userQueriesAndFragmentsGlob cm) (generatedQueriesAndFragmentsGlob cm)
              url (sources w) (disk_for_types this cm (files w))) as [ts|e] eqn:G.
  2:{ eexists. rewrite (execute_types_fail _ _ _ _ N U G). split; [done|].
      rewrite paths_of_app. apply Forall_app. split; [exact Early|constructor]. }
  destruct (isUsingTs cm) eqn:TS.
  { exists (sdk_script this cm url ts "").
    rewrite (execute_sdk_run _ url ts "" w N U G) by (fold cm; congruence).
    split; [done|]. unfold sdk_script. rewrite paths_of_app.
    apply Forall_app. split; [exact Early|].
    unfold late_script. fold cm. rewrite TS. generated_paths. }
  destruct (transform (typesCode ts)) as [js|e] eqn:T.
  2:{ eexists. rewrite (execute_transform_fail _ _ _ _ _ N U G TS T). split; [done|].
      rewrite paths_of_app. apply Forall_app. split; [exact Early|].
      generated_paths. }
  exists (sdk_script this cm url ts js).
  rewrite (execute_sdk_run _ url ts js w N U G) by done.
  split; [done|]. unfold sdk_script. rewrite paths_of_app.
  apply Forall_app. split; [exact Early|].
  unfold late_script. fold cm. rewrite TS. generated_paths.
Qed.

End ExecuteWorld.

(** X3.  However [execute] ends (it returns or throws; it never ends the
    process), only the eight generated files can differ afterwards:
    every other file is as before, and so are the configuration and the
    registered watchers. *)
Theorem execute_touches_only_generated_files `{Ext : Externals}
    (this : Codegen) (w : World) (p : string) :
  p ∉ generatedFiles (configManager w) ->
  let w' := world_of (execute this w) in
  files w' !! p = files w !! p
  /\ configManager w' = configManager w
  /\ watchers w' = watchers w
  /\ forall c w'', execute this w <> Exit c w''.
Proof.
  intros N w'. subst w'.
  destruct (execute_world this w) as (script & -> & F).
  split; [|split; [done|split; [done|apply never_exits_execute]]].
  rewrite files_performed. apply lookup_apply_steps_other.
  intros I. rewrite Forall_forall in F. by apply N, F.
Qed.

Lemma execute_touches_only_generated_files_witness :
  files (world_of (execute (Sample.codegen true)
                     (performed [Put "notes.md" "mine"] Sample.stale_world)))
    !! "notes.md" = Some "mine".
Proof.
  apply (execute_touches_only_generated_files (Sample.codegen true)
           (performed [Put "notes.md" "mine"] Sample.stale_world) "notes.md").
  apply (bool_decide_unpack _). vm_compute. exact I.
Defined.

(** X4.  When the API URL does not resolve, [execute] throws the error of
    [getApiURL] before anything else: no file is written or deleted,
    whether SDK generation is on or off. *)
Theorem execute_invalid_url_touches_nothing `{Ext : Externals}
    (this : Codegen) (e : string) (w : World) :
  getApiURL (configManager w) (port this) = Err e ->
  exists w',
    execute this w = Throw e w'
    /\ files w' = files w
    /\ events w' = events w ++ [ERaise e].
Proof.
  intros U. eexists. split; [by apply execute_apiURL_fail|]. by split.
Qed.

Lemma execute_invalid_url_touches_nothing_witness :
  exists w',
    execute Scenario.cloud_codegen (Scenario.local_world true)
    = Throw "Client not configured properly. Missing branch, clientId, token. Please visit https://tina.io/docs/tina-cloud/connecting-site/ for more information" w'
    /\ files w' = ∅
    /\ events w'
       = [ERaise "Client not configured properly. Missing branch, clientId, token. Please visit https://tina.io/docs/tina-cloud/connecting-site/ for more information"].
Proof.
  apply (execute_invalid_url_touches_nothing Scenario.cloud_codegen _
           (Scenario.local_world true)).
  reflexivity.
Defined.

(** ** Failures in the middle of [execute] *)

(** X5.  When the type generator throws, [execute] throws its error, having
    already replaced the query and the fragment documents: these two
    are new, every other file (the client and the types of the last
    successful run included) is as it was. *)
Theorem execute_types_failure_leaves_documents `{Ext : Externals}
    (this : Codegen) (url e : string) (w : World) :
  let cm := configManager w in
  noSDK this = false ->
  getApiURL cm (port this) = Ok url ->
  generateTypes (schema this)
    (userQueriesAndFragmentsGlob cm) (generatedQueriesAndFragmentsGlob cm) url
    (sources w)
    (<[generatedFragmentsFilePath cm:=fragDoc this]>
       (<[generatedQueriesFilePath cm:=queryDoc this]> (files w))) = Err e ->
  exists w',
    execute this w = Throw e w'
    /\ files w'
       = <[generatedFragmentsFilePath cm:=fragDoc this]>
           (<[generatedQueriesFilePath cm:=queryDoc this]> (files w)).
Proof.
  intros cm N U G. eexists. split.
  - by apply (execute_types_fail this url e w N U).
  - rewrite files_performed. unfold early_script.
    by rewrite !apply_steps_app, apply_steps_notes.
Qed.

Lemma execute_types_failure_leaves_documents_witness :
  exists w',
    execute (Scenario.faulty_codegen Scenario.TypesFail)
      (Scenario.faulty_world Scenario.TypesFail
         {[ "tina/__generated__/client.js" := "old client" ]})
    = Throw "Unknown fragment" w'
    /\ files w'
       = <["tina/__generated__/frags.gql":="fragment f on X { x }"]>
           (<["tina/__generated__/queries.gql":="query q { x }"]>
              {[ "tina/__generated__/client.js" := "old client" ]}).
Proof.
  exact (execute_types_failure_leaves_documents
           (Scenario.faulty_codegen Scenario.TypesFail)
           "http://localhost:4001/graphql" "Unknown fragment"
           (Scenario.faulty_world Scenario.TypesFail
              {[ "tina/__generated__/client.js" := "old client" ]})
           eq_refl eq_refl eq_refl).
Defined.

(** X6.  In the runtime mode, when the transpiler throws, [execute] throws
    its error between two writes: the schema document and the
    declaration file hold the new text, while the transpiled types and
    the client are those of the run before, and the files of the other
    mode have not been removed. *)
Theorem execute_transform_failure_is_partial `{Ext : Externals}
    (this : Codegen) (url ts e : string) (w : World) :
  let cm := configManager w in
  noSDK this = false ->
  NoDup (generatedFiles cm) ->
  getApiURL cm (port this) = Ok url ->
  generateTypes (schema this)
    (userQueriesAndFragmentsGlob cm) (generatedQueriesAndFragmentsGlob cm) url
    (sources w) (disk_for_types this cm (files w)) = Ok ts ->
  isUsingTs cm = false ->
  transform (typesCode ts) = Err e ->
  exists w',
    execute this w = Throw e w'
    /\ files w' !! generatedGraphQLGQLPath cm
       = Some (schemaCode (printSchema (schema this)))
    /\ files w' !! generatedTypesDFilePath cm = Some (typesCode ts)
    /\ files w' !! generatedTypesJSFilePath cm = files w !! generatedTypesJSFilePath cm
    /\ files w' !! generatedClientJSFilePath cm = files w !! generatedClientJSFilePath cm
    /\ files w' !! generatedTypesTSFilePath cm = files w !! generatedTypesTSFilePath cm
    /\ files w' !! generatedClientTSFilePath cm = files w !! generatedClientTSFilePath cm.
Proof.
  intros cm N D U G TS T. eexists. split.
  - by apply (execute_transform_fail this url ts e w N U G TS T).
  - rewrite files_performed. distinct_paths D.
    rewrite !lookup_apply_steps. unfold early_script.
    rewrite !touched_app, !foldl_touch_notes.
    unfold touched; simpl; decide_paths. done.
Qed.

Lemma execute_transform_failure_is_partial_witness :
  exists w',
    execute (Scenario.faulty_codegen Scenario.TransformFail)
      (Scenario.faulty_world Scenario.TransformFail
         {[ "tina/__generated__/types.js" := "old types" ]})
    = Throw "Transform failed" w'
    /\ files w' !! "tina/__generated__/types.d.ts"
       = Some (typesCode "export type Sdk = {} // type Query { x: Int }")
    /\ files w' !! "tina/__generated__/types.js" = Some "old types"
    /\ files w' !! "tina/__generated__/client.js" = None.
Proof.
  destruct (execute_transform_failure_is_partial
              (Scenario.faulty_codegen Scenario.TransformFail)
              "http://localhost:4001/graphql"
              "export type Sdk = {} // type Query { x: Int }"
              "Transform failed"
              (Scenario.faulty_world Scenario.TransformFail
                 {[ "tina/__generated__/types.js" := "old types" ]})
              eq_refl sample_paths_distinct eq_refl eq_refl eq_refl eq_refl)
    as (w' & E & _ & D & J & C & _).
  exists w'. split; [exact E|]. split; [exact D|]. split; [exact J|exact C].
Defined.

(** ** The documents of a successful run *)

(** X7.  After an execution of [execute] that returns with SDK generation
    enabled, the query document and the schema document hold what the
    object was constructed with; the type generator was called on a disk
    that already holds the new query and fragment documents, and the
    types file holds its result inside the fixed prelude; in the runtime
    mode the transpiled file is the transpilation of exactly that
    text. *)
Theorem execute_writes_documents `{Ext : Externals}
    (this : Codegen) (url : string) (w w' : World) :
  let cm := configManager w in
  noSDK this = false ->
  NoDup (generatedFiles cm) ->
  execute this w = Return url w' ->
  files w' !! generatedQueriesFilePath cm = Some (queryDoc this)
  /\ files w' !! generatedGraphQLGQLPath cm
     = Some (schemaCode (printSchema (schema this)))
  /\ exists ts,
      generateTypes (schema this)
        (userQueriesAndFragmentsGlob cm) (generatedQueriesAndFragmentsGlob cm) url
        (sources w)
        (<[generatedFragmentsFilePath cm:=fragDoc this]>
           (<[generatedQueriesFilePath cm:=queryDoc this]> (files w))) = Ok ts
      /\ if isUsingTs cm
         then files w' !! generatedTypesTSFilePath cm = Some (typesCode ts)
         else files w' !! generatedTypesDFilePath cm = Some (typesCode ts)
              /\ exists js,
                  transform (typesCode ts) = Ok js
                  /\ files w' !! generatedTypesJSFilePath cm = Some js.
Proof.
  intros cm N D E.
  apply execute_inv in E as [_ E]. rewrite N in E.
  destruct E as (ts & js & G & T & ->). fold cm in G, T |- *.
  rewrite files_performed.
  pose proof (sdk_script_leaves this cm url ts js (files w) D) as L.
  cbv zeta in L. destruct L as (Lq & _ & Lg & L).
  split; [exact Lq|]. split; [exact Lg|].
  exists ts. split; [exact G|].
  destruct (isUsingTs cm).
  - tauto.
  - split; [tauto|]. exists js. split; [by apply T|tauto].
Qed.

Lemma execute_writes_documents_witness :
  files (world_of (execute (Sample.codegen true) Sample.stale_world))
    !! "tina/__generated__/queries.gql" = Some "query q { x }".
Proof.
  apply (execute_writes_documents (Sample.codegen true)
           "http://localhost:4001/graphql" Sample.stale_world _
           eq_refl sample_paths_distinct sample_execute_returns).
Defined.

(** X8.  With no token configured, as in a project that only runs locally,
    the generated client is still written and passes the text
    [undefined] as its token. *)
Theorem client_code_without_token `{Ext : Externals}
    (this : Codegen) (url : string) (w w' : World) :
  let cm := configManager w in
  noSDK this = false ->
  NoDup (generatedFiles cm) ->
  token (config cm) = None ->
  execute this w = Return url w' ->
  exists clientString,
    files w' !! clientFile cm = Some clientString
    /\ occurs_in "token: 'undefined'" clientString.
Proof.
  intros cm N D T E.
  apply execute_inv in E as [_ E]. rewrite N in E.
  destruct E as (ts & js & _ & _ & ->). fold cm.
  exists (clientCode url None). split.
  - rewrite files_performed.
    pose proof (sdk_script_leaves this cm url ts js (files w) D) as L.
    cbv zeta in L. destruct L as (_ & _ & _ & L).
    unfold clientFile. rewrite <- T.
    destruct (isUsingTs cm); tauto.
  - exists ("import { createClient } from " +:+ dq +:+ "tinacms/dist/client" +:+ dq
            +:+ ";" +:+ nl +:+ "import { queries } from " +:+ dq +:+ "./types"
            +:+ dq +:+ ";" +:+ nl
            +:+ "export const client = createClient({ url: '" +:+ url +:+ "', "),
           (", queries });" +:+ nl +:+ "export default client;" +:+ nl +:+ "  ").
    unfold clientCode, show. rewrite !string_app_assoc. reflexivity.
Qed.

Lemma local_execute_returns :
  execute (Sample.codegen true) (Scenario.local_world true)
  = Return "http://localhost:4001/graphql"
      (world_of (execute (Sample.codegen true) (Scenario.local_world true))).
Proof. vm_compute. reflexivity. Qed.

Lemma client_code_without_token_witness :
  exists clientString,
    files (world_of (execute (Sample.codegen true) (Scenario.local_world true)))
      !! "tina/__generated__/client.ts" = Some clientString
    /\ occurs_in "token: 'undefined'" clientString.
Proof.
  apply (client_code_without_token (Sample.codegen true)
           "http://localhost:4001/graphql" (Scenario.local_world true) _
           eq_refl sample_paths_distinct eq_refl local_execute_returns).
Defined.

(** ** Running [execute] again *)

Section Again.
Context `{Ext : Externals}.

(** Deleting files that are not there does nothing. *)
Lemma dels_of_absent paths (disk : gmap string string) :
  Forall (fun p => disk !! p = None) paths ->
  apply_steps (map Del paths) disk = disk
  /\ effects_of (map Del paths) disk = [].
Proof.
  induction paths as [|p paths IH]; intros F; [done|].
  apply Forall_cons in F as [Fp F]. simpl.
  change (foldl apply_step (delete p disk) (map Del paths))
    with (apply_steps (map Del paths) (delete p disk)).
  unfold unlinked. rewrite Fp, delete_id by done. by apply IH.
Qed.

Lemma performed_dels_of_absent paths (w : World) :
  Forall (fun p => files w !! p = None) paths ->
  performed (map Del paths) w = w.
Proof.
  intros F. unfold performed.
  destruct (dels_of_absent paths (files w) F) as [-> ->].
  apply after_nothing.
Qed.

End Again.

(** X9.  With [noSDK] set, an execution that follows one that returned finds
    nothing to delete: it returns the same URL and leaves the world,
    trace included, exactly as it found it. *)
Theorem execute_noSDK_again_does_nothing `{Ext : Externals}
    (this : Codegen) (url : string) (w w1 : World) :
  noSDK this = true ->
  execute this w = Return url w1 ->
  execute this w1 = Return url w1.
Proof.
  intros N E. apply execute_inv in E as [U E]. rewrite N in E. subst w1.
  rewrite (execute_noSDK_run this url) by done.
  rewrite configManager_performed. f_equal.
  apply performed_dels_of_absent. rewrite files_performed.
  apply Forall_forall. intros p Hp. unfold noSDK_script.
  rewrite lookup_apply_dels. by rewrite decide_True.
Qed.

Lemma execute_noSDK_again_does_nothing_witness :
  execute (Sample.codegen false)
    (world_of (execute (Sample.codegen false) Sample.stale_world))
  = Return "http://localhost:4001/graphql"
      (world_of (execute (Sample.codegen false) Sample.stale_world)).
Proof.
  apply (execute_noSDK_again_does_nothing (Sample.codegen false)
           "http://localhost:4001/graphql" Sample.stale_world);
    [reflexivity|vm_compute; reflexivity].
Defined.

(** X10.  An execution of [execute] that follows one that returned, on the
    same sources and configuration, returns the same URL and leaves
    every file as the first did, provided the type generator does not
    read the files that [execute] writes after calling it.  This is
    what the callback of a query watcher runs on each event. *)
Theorem execute_again_same_files `{Ext : Externals}
    (this : Codegen) (url : string) (w w1 : World) :
  execute this w = Return url w1 ->
  types_ignore_late_files (configManager w) ->
  exists w2, execute this w1 = Return url w2 /\ files w2 = files w1.
Proof.
  intros E Frame. pose proof E as E'.
  apply execute_inv in E' as [U X].
  destruct (noSDK this) eqn:N.
  { exists w1. split; [|done]. subst w1.
    rewrite (execute_noSDK_run this url) by done.
    rewrite configManager_performed. f_equal.
    apply performed_dels_of_absent. rewrite files_performed.
    apply Forall_forall. intros p Hp. unfold noSDK_script.
    rewrite lookup_apply_dels. by rewrite decide_True. }
  destruct X as (ts & js & G & T & ->).
  set (cm := configManager w) in *.
  exists (performed (sdk_script this cm url ts js)
            (performed (sdk_script this cm url ts js) w)).
  split.
  - apply (execute_sdk_run this url ts js); try done.
    rewrite <- G. rewrite sources_performed, configManager_performed. fold cm.
    apply Frame. intros p Np. rewrite files_performed.
    apply (disk_for_types_again this cm url ts js [] (files w) p Np).
  - rewrite !files_performed. apply apply_steps_twice.
Qed.

Lemma execute_again_same_files_witness :
  exists w2,
    execute (Sample.codegen true)
      (world_of (execute (Sample.codegen true) Sample.stale_world))
    = Return "http://localhost:4001/graphql" w2
    /\ files w2 = files (world_of (execute (Sample.codegen true) Sample.stale_world)).
Proof.
  apply (execute_again_same_files (Sample.codegen true)
           "http://localhost:4001/graphql" Sample.stale_world _
           sample_execute_returns).
  intros s g1 g2 url src disk disk' Same. simpl.
  rewrite (Same "tina/__generated__/queries.gql"); [reflexivity|].
  apply (bool_decide_unpack _). vm_compute. exact I.
Defined.

(** X11.  Turning SDK generation off after a run with it on removes the
    client, the types and the two documents but keeps the schema
    document, which [removeGeneratedFilesIfExists] does not name: of the
    eight generated files, it is the one that remains. *)
Theorem noSDK_after_sdk_keeps_schema_document `{Ext : Externals}
    (this this' : Codegen) (url url' : string) (w w1 w2 : World) :
  let cm := configManager w in
  noSDK this = false ->
  noSDK this' = true ->
  NoDup (generatedFiles cm) ->
  execute this w = Return url w1 ->
  execute this' w1 = Return url' w2 ->
  files w2 !! generatedGraphQLGQLPath cm
  = Some (schemaCode (printSchema (schema this)))
  /\ forall p, p ∈ sdkFiles cm -> files w2 !! p = None.
Proof.
  intros cm N N' D E1 E2.
  apply execute_inv in E1 as [_ E1]. rewrite N in E1.
  destruct E1 as (ts & js & _ & _ & ->).
  apply execute_inv in E2 as [_ E2]. rewrite N' in E2. subst w2.
  rewrite configManager_performed. fold cm.
  rewrite !files_performed. unfold noSDK_script. split.
  - rewrite lookup_apply_dels, decide_False.
    + pose proof (sdk_script_leaves this cm url ts js (files w) D) as L.
      cbv zeta in L. tauto.
    + unfold generatedFiles in D. apply NoDup_app in D as (_ & D & _).
      intros I. apply (D _ I). apply elem_of_cons. by left.
  - intros p Hp. by rewrite lookup_apply_dels, decide_True.
Qed.

Lemma noSDK_after_sdk_keeps_schema_document_witness :
  files (world_of (execute (Sample.codegen false)
                     (world_of (execute (Sample.codegen true) Sample.stale_world))))
    !! "tina/__generated__/schema.gql"
  = Some (schemaCode "type Query { x: Int }").
Proof.
  apply (noSDK_after_sdk_keeps_schema_document
           (Sample.codegen true) (Sample.codegen false)
           "http://localhost:4001/graphql" "http://localhost:4001/graphql"
           Sample.stale_world _ _ eq_refl eq_refl sample_paths_distinct
           sample_execute_returns).
  vm_compute. reflexivity.
Defined.

(** ** Deleting a file that may be missing *)

(** X12.  [unlinkIfExists] always returns: afterwards the file is absent and
    every other file is as before, and [fs.unlinkSync] was called
    exactly when the file was there; called directly on a missing file,
    [fs.unlinkSync] throws. *)
Theorem unlinkIfExists_never_throws `{Ext : Externals} (path : string) (w : World) :
  (exists w',
      unlinkIfExists path w = Return tt w'
      /\ files w' = delete path (files w)
      /\ events w'
         = events w ++ (if files w !! path is Some _ then [EUnlinkSync path] else []))
  /\ (files w !! path = None -> exists e w', unlinkSync path w = Throw e w').
Proof.
  split.
  - eexists. split; [apply unlinkIfExists_run|]. split; [done|].
    rewrite events_performed. simpl. unfold unlinked. rewrite app_nil_r.
    by destruct (files w !! path).
  - intros E. unfold unlinkSync. rewrite E. by eexists _, _.
Qed.

Lemma unlinkIfExists_never_throws_witness :
  exists e w',
    unlinkSync "tina/__generated__/client.js" (Sample.world true true [])
    = Throw e w'.
Proof.
  apply (proj2 (unlinkIfExists_never_throws "tina/__generated__/client.js"
                  (Sample.world true true []))).
  reflexivity.
Defined.

(** ** The generated-output markers are substrings *)

Section Includes.

Lemma string_app_cons c (a b : string) : String c a +:+ b = String c (a +:+ b).
Proof. reflexivity. Qed.

Lemma includes_unfold (s sub : string) :
  includes s sub
  = String.prefix sub s
    || match s with EmptyString => false | String _ rest => includes rest sub end.
Proof. by destruct s. Qed.

Lemma prefix_app (m post : string) : String.prefix m (m +:+ post) = true.
Proof.
  induction m as [|c m IH]; [by destruct post|].
  rewrite string_app_cons. simpl. by destruct (ascii_dec c c).
Qed.

Lemma prefix_split (m s : string) :
  String.prefix m s = true -> exists post, s = m +:+ post.
Proof.
  revert s. induction m as [|c m IH]; intros s H; [by exists s|].
  destruct s as [|c' s]; [done|]. simpl in H.
  destruct (ascii_dec c c') as [->|]; [|done].
  destruct (IH s H) as [post ->]. by exists post.
Qed.

(** [includes] tells whether the second string occurs in the first. *)
Lemma includes_occurs `{Ext : Externals} (s sub : string) :
  includes s sub = true <-> occurs_in sub s.
Proof.
  split.
  - induction s as [|c s IH]; rewrite includes_unfold; intros H.
    + rewrite orb_false_r in H. apply prefix_split in H as [post ->].
      by exists "", post.
    + apply orb_true_iff in H as [H|H].
      * apply prefix_split in H as [post ->]. by exists "", post.
      * destruct (IH H) as (pre & post & ->). by exists (String c pre), post.
  - intros (pre & post & ->). induction pre as [|c pre IH].
    + rewrite includes_unfold.
      change ("" +:+ sub +:+ post) with (sub +:+ post).
      by rewrite prefix_app.
    + rewrite string_app_cons, includes_unfold, IH. apply orb_true_r.
Qed.

End Includes.

(** X13.  A change reported by [server.watcher] is ignored as soon as one of
    the three markers occurs anywhere in its path, be it in the name of
    a directory of the user: the listener returns and the world, trace
    included, is as before. *)
Theorem change_with_marker_anywhere_ignored `{Ext : Externals}
    (this : DevCommand.t) (m pre post : string) (w : World) :
  m ∈ generatedOutputMarkers ->
  DevCommand.serverWatcher_emit this (DevCommand.Change (pre +:+ m +:+ post)) w
  = Return tt w.
Proof.
  intros I. simpl. apply marked_change_ignored.
  assert (includes (pre +:+ m +:+ post) m = true) as Inc
    by (apply includes_occurs; by exists pre, post).
  unfold has_marker, generatedOutputMarkers in *. simpl.
  rewrite !elem_of_cons in I.
  destruct I as [->|[->|[->|I]]]; [| | |by apply elem_of_nil in I];
    rewrite Inc; by rewrite ?orb_true_r.
Qed.

Lemma change_with_marker_anywhere_ignored_witness :
  DevCommand.serverWatcher_emit Sample.command
    (DevCommand.Change "sites/my-tinacms/dist-notes/tina/config.ts")
    (Sample.world true true [])
  = Return tt (Sample.world true true []).
Proof.
  apply (change_with_marker_anywhere_ignored Sample.command
           "tinacms/dist" "sites/my-" "-notes/tina/config.ts"
           (Sample.world true true [])).
  apply (bool_decide_unpack _). vm_compute. exact I.
Defined.

(** ** Reconciling: what a failure leaves, what a success adds *)

Section SetupFailures.
Context `{Ext : Externals}.

Lemma files_set_configManager cm (w : World) :
  files (set_configManager cm w) = files w.
Proof. reflexivity. Qed.

Lemma files_notes d (w : World) : files (performed (map Note d) w) = files w.
Proof. rewrite files_performed. apply apply_steps_notes. Qed.

Lemma events_notes d (w : World) :
  events (performed (map Note d) w) = events w ++ d.
Proof. rewrite events_performed. by rewrite effects_of_notes. Qed.

(** [setup] when [processConfig] throws. *)
Lemma setup_config_failure_run this e (w : World) :
  processConfig (sources w) = Err e ->
  DevCommand.setup this w
  = Exit 1
      (performed
         (map Note
            ([ECall ProcessConfig; ERaise e;
              EPrint LoggerError
                "Unable to start dev server, please fix your Tina config and try again";
              EPrint LoggerError e]
             ++ (if DevCommand.verbose this then [EPrint ConsoleError e] else [])
             ++ [EExit 1])) w).
Proof.
  intros P. unfold DevCommand.setup. rewrite bind_run. unfold try_catch at 1.
  run_by the_sources_run. rewrite bind_run, (call_err ProcessConfig _ _ P).
  cbv beta iota. rewrite config_failure_run, performed_app. reflexivity.
Qed.

(** [setup] when the database cannot be created. *)
Lemma setup_database_failure_run this cm e (w : World) :
  processConfig (sources w) = Ok cm ->
  createAndInitializeDatabase (sources w) cm = Err e ->
  DevCommand.setup this w
  = Throw e
      (set_configManager cm
         (performed
            (map Note [ECall ProcessConfig; ECall CreateAndInitializeDatabase; ERaise e])
            w)).
Proof.
  intros P C. unfold DevCommand.setup. rewrite bind_run. unfold try_catch at 1.
  run_by the_sources_run. run_by (call_ok ProcessConfig _ _ P).
  rewrite install_configManager_run. cbv beta iota.
  run_by this_configManager_run. run_by the_sources_run.
  simpl configManager. simpl sources.
  rewrite bind_run, (call_err CreateAndInitializeDatabase _ _ C). cbv beta iota.
  by rewrite !performed_set_configManager, !performed_app.
Qed.

(** The end of [setup] when the full index throws. *)
Lemma setup_tail_index_failure this codegen database tinaSchema graphQLSchema src
    url e (wA wB : World) :
  execute codegen wA = Return url wB ->
  indexContent src database tinaSchema graphQLSchema = Err e ->
  (apiURL ← execute codegen;
   (if negb (DevCommand.noWatch this) then DevCommand.watchQueries codegen else ret tt) ;;
   call IndexContent (indexContent src database tinaSchema graphQLSchema) ;;
   ret (apiURL, database)) wA
  = Throw e
      (performed [Note (ERaise e)] (after_codegen this codegen wB)).
Proof.
  intros X I. run_by X. unfold after_codegen, watch_effects.
  destruct (DevCommand.noWatch this); simpl negb; cbv iota.
  - rewrite bind_run, (ret_run tt). cbv beta iota.
    rewrite bind_run, (call_err IndexContent _ _ I). cbv beta iota.
    simpl map. rewrite performed_nil, app_nil_r.
    rewrite !performed_app. reflexivity.
  - run_by watchQueries_run.
    rewrite bind_run, (call_err IndexContent _ _ I). cbv beta iota.
    by rewrite !performed_app.
Qed.

Lemma watchers_after_codegen this codegen (w : World) :
  watchers (after_codegen this codegen w)
  = watchers w ++ (if DevCommand.noWatch this then [] else [QueryWatcher false codegen]).
Proof. reflexivity. Qed.


(** The world in which a returning [execute] leaves off. *)
Lemma execute_returns_world this url (w w' : World) :
  execute this w = Return url w' ->
  exists script,
    w' = performed script w
    /\ Forall (fun p => p ∈ generatedFiles (configManager w)) (paths_of script).
Proof.
  intros E. destruct (execute_world this w) as (script & W & F).
  rewrite E in W. by exists script.
Qed.

End SetupFailures.

(** X14.  When the configuration is invalid, [setup] ends the process with
    code 1 after logging the fixed line and the message of the error
    (and the error itself on the console when [verbose] is set);
    nothing else has been done: no file is written, no watcher is
    registered and the manager is as before. *)
Theorem setup_invalid_config_exits `{Ext : Externals}
    (this : DevCommand.t) (e : string) (w : World) :
  processConfig (sources w) = Err e ->
  exists w',
    DevCommand.setup this w = Exit 1 w'
    /\ events w'
       = events w
         ++ [ECall ProcessConfig; ERaise e;
             EPrint LoggerError
               "Unable to start dev server, please fix your Tina config and try again";
             EPrint LoggerError e]
         ++ (if DevCommand.verbose this then [EPrint ConsoleError e] else [])
         ++ [EExit 1]
    /\ files w' = files w
    /\ watchers w' = watchers w
    /\ configManager w' = configManager w.
Proof.
  intros P. eexists. split; [by apply setup_config_failure_run|].
  split; [apply events_notes|]. split; [apply files_notes|done].
Qed.

Lemma setup_invalid_config_exits_witness :
  exists w',
    DevCommand.setup Sample.command (Sample.world false true []) = Exit 1 w'
    /\ events w'
       = [ECall ProcessConfig;
          ERaise "Invalid config: collection name is required";
          EPrint LoggerError
            "Unable to start dev server, please fix your Tina config and try again";
          EPrint LoggerError "Invalid config: collection name is required";
          EExit 1]
    /\ files w' = ∅.
Proof.
  destruct (setup_invalid_config_exits Sample.command
              "Invalid config: collection name is required"
              (Sample.world false true []) eq_refl)
    as (w' & E & Ev & F & _).
  exists w'. split; [exact E|]. split; [exact Ev|exact F].
Defined.

(** X15.  When the configuration is valid and the database cannot be created,
    [setup] throws the error without having written or deleted a file
    or registered a watcher; the manager, however, already holds the
    new configuration. *)
Theorem setup_database_failure_keeps_disk `{Ext : Externals}
    (this : DevCommand.t) (cm : ConfigManager) (e : string) (w : World) :
  processConfig (sources w) = Ok cm ->
  createAndInitializeDatabase (sources w) cm = Err e ->
  exists w',
    DevCommand.setup this w = Throw e w'
    /\ files w' = files w
    /\ watchers w' = watchers w
    /\ configManager w' = cm.
Proof.
  intros P C. eexists. split; [by apply setup_database_failure_run|].
  split; [|done]. rewrite files_set_configManager. apply files_notes.
Qed.

Lemma setup_database_failure_keeps_disk_witness :
  exists w',
    DevCommand.setup Sample.command
      (Scenario.faulty_world Scenario.DatabaseFail {[ "notes.md" := "mine" ]})
    = Throw "Database is locked" w'
    /\ files w' = {[ "notes.md" := "mine" ]}.
Proof.
  destruct (setup_database_failure_keeps_disk Sample.command
              (Sample.manager Scenario.local_config false) "Database is locked"
              (Scenario.faulty_world Scenario.DatabaseFail {[ "notes.md" := "mine" ]})
              eq_refl eq_refl)
    as (w' & E & F & _).
  exists w'. split; [exact E|exact F].
Defined.

(** X16.  When everything up to the full index succeeded and the full index
    throws, [setup] throws its error; the generated files are those the
    code generator left, and the query watcher of this run is already
    registered (unless watching is off). *)
Theorem setup_index_failure_keeps_artifacts `{Ext : Externals}
    (this : DevCommand.t) (cm : ConfigManager) (database : Database)
    (tinaSchema : TinaSchema) (graphQLSchema : DocumentNode)
    (queryDoc fragDoc schemaObject lookupObject graphqlSchemaObject : string)
    (schema : GraphQLSchema) (url e : string) (w wB : World) :
  let codegen :=
    new_Codegen (Some (DevCommand.port this)) schema (DevCommand.noSDK this)
      queryDoc fragDoc in
  processConfig (sources w) = Ok cm ->
  createAndInitializeDatabase (sources w) cm = Ok database ->
  buildSchema database (config cm) = Ok (tinaSchema, graphQLSchema, queryDoc, fragDoc) ->
  (isUsingLegacyFolder cm = false ->
   requireJSON (sources w) (generatedSchemaJSONPath cm) = Ok schemaObject
   /\ requireJSON (sources w) (generatedLookupJSONPath cm) = Ok lookupObject
   /\ requireJSON (sources w) (generatedGraphQLJSONPath cm) = Ok graphqlSchemaObject) ->
  getASTSchema database = Ok schema ->
  execute codegen
    (before_codegen cm schemaObject lookupObject graphqlSchemaObject w)
  = Return url wB ->
  indexContent (sources w) database tinaSchema graphQLSchema = Err e ->
  exists w',
    DevCommand.setup this w = Throw e w'
    /\ files w' = files wB
    /\ watchers w'
       = watchers w
         ++ (if DevCommand.noWatch this then [] else [QueryWatcher false codegen]).
Proof.
  intros codegen P C B R G X I.
  rewrite (setup_head_run this cm database tinaSchema graphQLSchema queryDoc fragDoc
             schemaObject lookupObject graphqlSchemaObject schema w P C B R G).
  fold codegen.
  rewrite (setup_tail_index_failure this codegen database tinaSchema graphQLSchema
             (sources w) url e _ wB X I).
  eexists. split; [reflexivity|]. split.
  - exact (files_after_codegen this codegen wB).
  - rewrite watchers_performed, watchers_after_codegen.
    apply execute_returns_world in X as (script & -> & _). reflexivity.
Qed.

Lemma index_fault_execute_returns :
  execute (Scenario.faulty_codegen Scenario.IndexFail)
    (before_codegen (Sample.manager Scenario.local_config false) "{}" "{}" "{}"
       (Scenario.faulty_world Scenario.IndexFail ∅))
  = Return "http://localhost:4001/graphql"
      (world_of
         (execute (Scenario.faulty_codegen Scenario.IndexFail)
            (before_codegen (Sample.manager Scenario.local_config false)
               "{}" "{}" "{}" (Scenario.faulty_world Scenario.IndexFail ∅)))).
Proof. vm_compute. reflexivity. Qed.

Lemma setup_index_failure_keeps_artifacts_witness :
  exists w',
    DevCommand.setup Sample.command (Scenario.faulty_world Scenario.IndexFail ∅)
    = Throw "Index failed" w'
    /\ files w' !! "tina/__generated__/client.js"
       = Some (clientCode "http://localhost:4001/graphql" None)
    /\ watchers w' = [QueryWatcher false (Scenario.faulty_codegen Scenario.IndexFail)].
Proof.
  destruct (@setup_index_failure_keeps_artifacts
              (Scenario.faulty Scenario.IndexFail) Sample.command
              (Sample.manager Scenario.local_config false) tt tt tt
              "query q { x }" "fragment f on X { x }" "{}" "{}" "{}"
              "type Query { x: Int }" "http://localhost:4001/graphql" "Index failed"
              (Scenario.faulty_world Scenario.IndexFail ∅)
              (world_of
                 (execute (Scenario.faulty_codegen Scenario.IndexFail)
                    (before_codegen (Sample.manager Scenario.local_config false)
                       "{}" "{}" "{}" (Scenario.faulty_world Scenario.IndexFail ∅))))
              eq_refl eq_refl eq_refl (fun _ => conj eq_refl (conj eq_refl eq_refl))
              eq_refl index_fault_execute_returns eq_refl)
    as (w' & E & F & W).
  exists w'. split; [exact E|]. split; [|exact W].
  rewrite F. vm_compute. reflexivity.
Defined.

(** X17.  A reconcile that returns registers exactly one query watcher, not
    yet ready, for the generator it has just built from the command's
    port and [noSDK] option, and keeps every watcher registered before
    as it was; with [noWatch] it registers none.  So each change of the
    configuration adds a query watcher to those of the earlier
    reconciles. *)
Theorem setup_registers_one_query_watcher `{Ext : Externals}
    (this : DevCommand.t) (r : string * Database) (w w' : World) :
  DevCommand.setup this w = Return r w' ->
  if DevCommand.noWatch this then watchers w' = watchers w
  else exists codegen,
      watchers w' = watchers w ++ [QueryWatcher false codegen]
      /\ port codegen = Some (DevCommand.port this)
      /\ noSDK codegen = DevCommand.noSDK this.
Proof.
  intros H.
  apply setup_inv in H
    as (cm & db & tsch & gsch & qd & fd & so & lo & go & sch & url & wB & R).
  cbv zeta in R. destruct R as (_ & _ & _ & _ & _ & X & _ & _ & ->).
  apply execute_returns_world in X as (script & -> & _).
  rewrite watchers_after_codegen, watchers_performed.
  destruct (DevCommand.noWatch this).
  - apply app_nil_r.
  - eexists. split; [reflexivity|]. by split.
Qed.

Lemma sample_setup_returns :
  DevCommand.setup Sample.command (Sample.world true true [])
  = Return ("http://localhost:4001/graphql", Sample.the_database)
      (world_of (DevCommand.setup Sample.command (Sample.world true true []))).
Proof. vm_compute. reflexivity. Qed.

Lemma sample_setup_again_returns :
  DevCommand.setup Sample.command
    (world_of (DevCommand.setup Sample.command (Sample.world true true [])))
  = Return ("http://localhost:4001/graphql", Sample.the_database)
      (world_of
         (DevCommand.setup Sample.command
            (world_of (DevCommand.setup Sample.command (Sample.world true true []))))).
Proof. vm_compute. reflexivity. Qed.

Lemma setup_registers_one_query_watcher_witness :
  exists codegen,
    watchers
      (world_of
         (DevCommand.setup Sample.command
            (world_of (DevCommand.setup Sample.command (Sample.world true true [])))))
    = watchers (world_of (DevCommand.setup Sample.command (Sample.world true true [])))
      ++ [QueryWatcher false codegen]
    /\ port codegen = Some (Int 4001)
    /\ noSDK codegen = false.
Proof.
  exact (setup_registers_one_query_watcher Sample.command _ _ _
           sample_setup_again_returns).
Defined.



(** X19.  After a reconcile that returns, unless the legacy layout is used,
    the lock file in the tina folder holds the three generated JSON
    modules under the keys schema, lookup and graphql, in this order;
    with the legacy layout the lock file is not touched.  (The lock
    file is assumed not to be one of the eight generated files.) *)
Theorem setup_writes_lock_file `{Ext : Externals}
    (this : DevCommand.t) (cm : ConfigManager) (r : string * Database)
    (w w' : World) :
  processConfig (sources w) = Ok cm ->
  DevCommand.setup this w = Return r w' ->
  lockFile cm ∉ generatedFiles cm ->
  if isUsingLegacyFolder cm
  then files w' !! lockFile cm = files w !! lockFile cm
  else exists schemaObject lookupObject graphqlSchemaObject,
      requireJSON (sources w) (generatedSchemaJSONPath cm) = Ok schemaObject
      /\ requireJSON (sources w) (generatedLookupJSONPath cm) = Ok lookupObject
      /\ requireJSON (sources w) (generatedGraphQLJSONPath cm) = Ok graphqlSchemaObject
      /\ files w' !! lockFile cm
         = Some ("{" +:+ dq +:+ "schema" +:+ dq +:+ ":" +:+ schemaObject
                 +:+ "," +:+ dq +:+ "lookup" +:+ dq +:+ ":" +:+ lookupObject
                 +:+ "," +:+ dq +:+ "graphql" +:+ dq +:+ ":" +:+ graphqlSchemaObject
                 +:+ "}").
Proof.
  intros P H N.
  apply setup_inv in H
    as (cm' & db & tsch & gsch & qd & fd & so & lo & go & sch & u & wB & R).
  cbv zeta in R. destruct R as (P' & _ & _ & Rq & _ & X & _ & _ & ->).
  assert (cm' = cm) as -> by congruence.
  apply execute_returns_world in X as (script & -> & F).
  change (configManager (before_codegen cm so lo go w)) with cm in *.
  assert (files (after_codegen this
                   (new_Codegen (Some (DevCommand.port this)) sch
                      (DevCommand.noSDK this) qd fd)
                   (performed script (before_codegen cm so lo go w)))
          !! lockFile cm
          = apply_steps (setup_prelude cm so lo go) (files w) !! lockFile cm) as ->.
  { rewrite files_after_codegen, files_performed, files_before_codegen.
    apply lookup_apply_steps_other. intros I. rewrite Forall_forall in F.
    by apply N, F. }
  rewrite lookup_apply_steps. unfold setup_prelude, lock_script.
  destruct (isUsingLegacyFolder cm) eqn:L.
  - reflexivity.
  - destruct (Rq eq_refl) as (R1 & R2 & R3).
    exists so, lo, go. split; [exact R1|]. split; [exact R2|]. split; [exact R3|].
    unfold touched, lockFile. simpl. by rewrite decide_True.
Qed.

Lemma setup_writes_lock_file_witness :
  files (world_of (DevCommand.setup Sample.command (Sample.world true true [])))
    !! "tina/tina-lock.json"
  = Some ("{" +:+ dq +:+ "schema" +:+ dq +:+ ":{}," +:+ dq +:+ "lookup" +:+ dq
          +:+ ":{}," +:+ dq +:+ "graphql" +:+ dq +:+ ":{}}").
Proof.
  destruct (setup_writes_lock_file Sample.command
              (Sample.manager Sample.full_config true) _
              (Sample.world true true []) _ eq_refl sample_setup_returns)
    as (so & lo & go & R1 & R2 & R3 & L).
  - apply (bool_decide_unpack _). vm_compute. exact I.
  - inversion R1. inversion R2. inversion R3. subst. exact L.
Defined.

(** ** The listener of [server.watcher] with a valid configuration *)

(** X20.  A change outside the generated output, with a configuration that
    loads, runs one reconcile and always comes back to the server: when
    the reconcile returns, [Tina config updated] is logged; when it
    throws, at whatever step, the message of the error is logged and
    nothing is thrown further.  What the reconcile did up to there
    stays. *)
Theorem config_change_is_logged `{Ext : Externals}
    (this : DevCommand.t) (path : string) (cm : ConfigManager) (w : World) :
  has_marker path = false ->
  processConfig (sources w) = Ok cm ->
  match DevCommand.setup this w with
  | Return _ w1 =>
      DevCommand.serverWatcher_emit this (DevCommand.Change path) w
      = Return tt (record (EPrint LoggerInfo "Tina config updated") w1)
  | Throw e w1 =>
      DevCommand.serverWatcher_emit this (DevCommand.Change path) w
      = Return tt (record (EPrint LoggerError e) w1)
  | Exit _ _ => False
  end.
Proof.
  intros Mk P. apply has_marker_false in Mk as (M1 & M2 & M3).
  simpl. unfold DevCommand.serverWatcher_onChange. rewrite M1, M2, M3.
  unfold try_catch. rewrite bind_run.
  pose proof (setup_valid_config_never_exits this cm w P) as N.
  destruct (DevCommand.setup this w) as [r w1|e w1|c w1].
  - reflexivity.
  - reflexivity.
  - by destruct (N c w1).
Qed.

Lemma index_fault_setup_throws :
  DevCommand.setup Sample.command (Scenario.faulty_world Scenario.IndexFail ∅)
  = Throw "Index failed"
      (world_of
         (DevCommand.setup Sample.command (Scenario.faulty_world Scenario.IndexFail ∅))).
Proof. vm_compute. reflexivity. Qed.

Lemma config_change_is_logged_witness :
  DevCommand.serverWatcher_emit Sample.command (DevCommand.Change "tina/config.ts")
    (Scenario.faulty_world Scenario.IndexFail ∅)
  = Return tt
      (record (EPrint LoggerError "Index failed")
         (world_of
            (DevCommand.setup Sample.command
               (Scenario.faulty_world Scenario.IndexFail ∅)))).
Proof.
  pose proof (@config_change_is_logged (Scenario.faulty Scenario.IndexFail)
                Sample.command "tina/config.ts"
                (Sample.manager Scenario.local_config false)
                (Scenario.faulty_world Scenario.IndexFail ∅) eq_refl eq_refl) as H.
  rewrite index_fault_setup_throws in H. exact H.
Defined.

(** ** The listeners of the chokidar watchers *)

Section Listeners.
Context `{Ext : Externals}.


End Listeners.

(** X21.  The ready signal of a content watcher sets its [ready] variable and
    does nothing else; an add event that follows is handed to the
    content indexer with the path relative to the content root. *)
Theorem content_add_after_ready_indexed `{Ext : Externals}
    (i : nat) (ready : bool) (database : Database) (file : string) (w : World) :
  watchers w !! i = Some (ContentWatcher ready database) ->
  exists w1,
    DevCommand.chokidar_emit i DevCommand.Ready w = Return tt w1
    /\ watchers w1 = <[i:=ContentWatcher true database]> (watchers w)
    /\ files w1 = files w
    /\ events w1 = events w
    /\ added w1 (DevCommand.chokidar_emit i (DevCommand.Add file) w1)
       = [ECall (IndexContentByPaths [printContentRelativePath (configManager w) file])].
Proof.
  intros W.
  exists (set_watchers (<[i:=ContentWatcher true database]> (watchers w)) w).
  split; [|split; [done|split; [done|split; [done|]]]].
  - unfold DevCommand.chokidar_emit. rewrite W. reflexivity.
  - assert (watchers (set_watchers (<[i:=ContentWatcher true database]> (watchers w)) w)
            !! i = Some (ContentWatcher true database)) as W1.
    { simpl. apply list_lookup_insert_eq. by apply lookup_lt_Some in W. }
    destruct (content_events_reach_indexer i true database file _ W1) as (_ & _ & A).
    by apply A.
Qed.

Lemma content_add_after_ready_indexed_witness :
  exists w1,
    DevCommand.chokidar_emit 0 DevCommand.Ready (Sample.content_world false)
    = Return tt w1
    /\ added w1 (DevCommand.chokidar_emit 0 (DevCommand.Add "/site/content/posts/a.md") w1)
       = [ECall (IndexContentByPaths ["/site/content/posts/a.md"])].
Proof.
  destruct (content_add_after_ready_indexed 0 false Sample.the_database
              "/site/content/posts/a.md" (Sample.content_world false) eq_refl)
    as (w1 & E & _ & _ & _ & A).
  exists w1. split; [exact E|exact A].
Defined.




(** ** A change outside the generated output *)

Section Reconciles.
Context `{Ext : Externals}.

(** Whatever [setup] does, it starts by loading the configuration. *)
Lemma setup_starts_with_processConfig this (w : World) :
  exists d,
    events (world_of (DevCommand.setup this w)) = events w ++ ECall ProcessConfig :: d.
Proof.
  destruct (processConfig (sources w)) as [cm|e] eqn:P.
  2:{ rewrite (setup_config_failure_run this e w P).
      eexists. exact (events_notes _ w). }
  unfold DevCommand.setup. rewrite bind_run. unfold try_catch at 1.
  run_by the_sources_run. run_by (call_ok ProcessConfig _ _ P).
  rewrite install_configManager_run. cbv beta iota.
  match goal with
  | |- context [world_of (?rest ?w0)] =>
      assert (traced 1 6 rest) as T; [|destruct (T w0) as (d & -> & _)]
  end.
  { apply (traced_bind 1 1 6); [lia|apply traced_read|intros cm'].
    apply (traced_bind 1 1 6); [lia|apply traced_read|intros src].
    apply (traced_bind 1 2 6); [lia| |intros database].
    { eapply traced_call; [reflexivity|lia]. }
    apply (traced_bind 2 2 6);
      [lia| |intros [[[tinaSchema graphQLSchema] queryDoc] fragDoc]].
    { eapply traced_call; [reflexivity|lia]. }
    apply (traced_bind 2 3 6); [lia| |intros _].
    { destruct (negb _); [|apply traced_ret].
      apply (traced_bind 2 3 3); [lia| |intros ?].
      { eapply traced_call; [reflexivity|lia]. }
      repeat traced_step. }
    apply (traced_bind 3 4 6); [lia| |intros schema].
    { eapply traced_call; [reflexivity|lia]. }
    apply (traced_bind 4 4 6); [lia|apply traced_execute|intros apiURL].
    apply (traced_bind 4 5 6); [lia| |intros _].
    { destruct (negb _); [apply traced_watchQueries; lia|apply traced_ret]. }
    apply (traced_bind 5 6 6); [lia| |intros _].
    { eapply traced_call; [reflexivity|lia]. }
    apply traced_ret. }
  exists d. simpl. by rewrite <- app_assoc.
Qed.

End Reconciles.

(** X23.  A change reported by [server.watcher] whose path contains none of
    the three markers starts a reconcile: the first thing the listener
    does is to load the configuration again. *)
Theorem unmarked_change_starts_reconcile `{Ext : Externals}
    (this : DevCommand.t) (path : string) (w : World) :
  has_marker path = false ->
  exists d,
    added w (DevCommand.serverWatcher_emit this (DevCommand.Change path) w)
    = ECall ProcessConfig :: d.
Proof.
  intros Mk. apply has_marker_false in Mk as (M1 & M2 & M3).
  simpl. unfold DevCommand.serverWatcher_onChange. rewrite M1, M2, M3.
  unfold try_catch. rewrite bind_run.
  destruct (setup_starts_with_processConfig this w) as (d & E).
  destruct (DevCommand.setup this w) as [r w1|e w1|c w1]; simpl in E.
  - exists (d ++ [EPrint LoggerInfo "Tina config updated"]).
    apply added_app. rewrite print_run. simpl. rewrite E.
    by rewrite <- app_assoc.
  - exists (d ++ [EPrint LoggerError e]).
    apply added_app. rewrite print_run. simpl. rewrite E.
    by rewrite <- app_assoc.
  - exists d. by apply added_app.
Qed.

Lemma unmarked_change_starts_reconcile_witness :
  exists d,
    added (Sample.world true true [])
      (DevCommand.serverWatcher_emit Sample.command
         (DevCommand.Change "tina/config.ts") (Sample.world true true []))
    = ECall ProcessConfig :: d.
Proof.
  apply (unmarked_change_starts_reconcile Sample.command "tina/config.ts"
           (Sample.world true true [])).
  vm_compute. reflexivity.
Defined.
